(** * ar_back: favourites engine, login and category listing

    A shallow embedding of the Flask handlers of
    [products/product_routes.py], [auth/auth_routes.py] and [app.py]
    together with the tables of [models.py].

    The relational store is a record of row lists (one list per table,
    in insertion order).  Handlers that commit take the store and return
    the new store with the response; read-only handlers return the
    response alone.  A response is the JSON body paired with the HTTP
    status, as in [return jsonify(...), status].

    Integers are Python integers ([Z]); timestamps are [Z]; the [Float]
    column [price] is a rational ([Q]), whose order agrees with the order
    of finite floating-point values. *)

From Stdlib Require Import ZArith List String Ascii Bool Lia.
From Stdlib Require Import QArith Sorted Permutation DecimalString DecimalPos.
Import ListNotations.

Local Open Scope string_scope.
Local Open Scope list_scope.
Local Open Scope Z_scope.

(** ** Tables of [models.py] *)

Record User : Type := mkUser {
  u_id : Z;
  u_email : string;
  u_username : string;
  u_password_hash : string;
  u_full_name : option string;
  u_created_at : Z
}.

Record Product : Type := mkProduct {
  p_id : Z;
  p_name : string;
  p_description : option string;
  p_price : Q;
  p_category : option string;
  p_model_path : option string;
  p_image_url : option string;
  p_material : option string;
  p_color : option string;
  p_dimensions : list (string * Z);
  p_in_stock : bool;
  p_created_at : Z
}.

Record UserFavorite : Type := mkUserFavorite {
  f_id : Z;
  f_user_id : Z;
  f_product_id : Z;
  f_added_at : Z
}.

(** The database: the three tables and the sequence that feeds
    [user_favorites.id]. *)
Record Store : Type := mkStore {
  users : list User;
  products : list Product;
  user_favorites : list UserFavorite;
  favorite_seq : Z
}.

(** ** Queries *)

(** [User.query.get(user_id)] *)
Definition User_get (st : Store) (user_id : Z) : option User :=
  find (fun u => u_id u =? user_id) (users st).

(** [Product.query.get(product_id)] *)
Definition Product_get (st : Store) (product_id : Z) : option Product :=
  find (fun p => p_id p =? product_id) (products st).

(** [User.query.filter_by(email=email).first()] *)
Definition User_by_email (st : Store) (e : string) : option User :=
  find (fun u => String.eqb (u_email u) e) (users st).

(** [User.query.filter_by(username=username).first()] *)
Definition User_by_username (st : Store) (n : string) : option User :=
  find (fun u => String.eqb (u_username u) n) (users st).

(** [db.session.add(user); db.session.commit()] on the [users] table,
    whose [id] is the primary key and whose [email] and [username] are
    [unique=True]: the insert is refused ([None], an [IntegrityError]) when
    one of the three is already taken. *)
Definition insert_user (st : Store) (u : User) : option Store :=
  if existsb (fun v => (u_id v =? u_id u)
                       || String.eqb (u_email v) (u_email u)
                       || String.eqb (u_username v) (u_username u))
             (users st)
  then None
  else Some {| users := users st ++ [u];
               products := products st;
               user_favorites := user_favorites st;
               favorite_seq := favorite_seq st |}.

(** The predicate of [filter_by(category=category)]; a [NULL] category
    equals nothing. *)
Definition has_category (category : string) (p : Product) : bool :=
  match p_category p with
  | Some c => String.eqb c category
  | None => false
  end.

(** The predicate of [filter_by(user_id=..., product_id=...)]. *)
Definition same_pair (user_id product_id : Z) (f : UserFavorite) : bool :=
  (f_user_id f =? user_id) && (f_product_id f =? product_id).

(** [UserFavorite.query.filter_by(user_id=user_id, product_id=product_id).first()] *)
Definition favorite_first (st : Store) (user_id product_id : Z)
  : option UserFavorite :=
  find (same_pair user_id product_id) (user_favorites st).

(** [UserFavorite.query.filter_by(user_id=user_id)] *)
Definition favorites_of (st : Store) (user_id : Z) : list UserFavorite :=
  filter (fun f => f_user_id f =? user_id) (user_favorites st).

(** [query.join(Product)]: the inner join on the foreign key
    [user_favorites.product_id = products.id]. *)
Definition join_product (st : Store) (fs : list UserFavorite)
  : list (UserFavorite * Product) :=
  flat_map
    (fun f => map (fun p => (f, p))
                  (filter (fun p => p_id p =? f_product_id f) (products st)))
    fs.

(** [ORDER BY]: an insertion sort for the comparison [leb].  The order
    of rows with equal keys is the database's choice; this sort keeps them
    in table order, and no statement below depends on it. *)
Fixpoint insert_by {A : Type} (leb : A -> A -> bool) (x : A) (l : list A)
  : list A :=
  match l with
  | [] => [x]
  | y :: r => if leb x y then x :: y :: r else y :: insert_by leb x r
  end.

Fixpoint order_by {A : Type} (leb : A -> A -> bool) (l : list A) : list A :=
  match l with
  | [] => []
  | x :: r => insert_by leb x (order_by leb r)
  end.

(** ** JSON bodies and responses *)

(** [UserFavorite.to_dict()]: the row with its product embedded. *)
Record FavoriteDict : Type := mkFavoriteDict {
  fd_id : Z;
  fd_user_id : Z;
  fd_product_id : Z;
  fd_product : option Product;
  fd_added_at : Z
}.

Definition favorite_to_dict (st : Store) (f : UserFavorite) : FavoriteDict :=
  {| fd_id := f_id f;
     fd_user_id := f_user_id f;
     fd_product_id := f_product_id f;
     fd_product := Product_get st (f_product_id f);
     fd_added_at := f_added_at f |}.

(** [Raised prefix] is the body of an [except Exception as e] branch
    taken on an error of the database or of a library: [success] is false
    and the message is [prefix] followed by [str(e)]. *)
Inductive json_body : Type :=
| Msg (success : bool) (message : string)
| FavoriteBody (message : string) (favorite : FavoriteDict)
| IsFavoriteBody (is_favorite : bool)
| FavoritesBody (count page per_page total_pages : Z)
                (favorites : list Product)
| ClearedBody (message : string) (deleted_count : Z)
| CategoriesBody (categories : list string)
| LoginBody (message : string) (access_token : string) (user : User)
| Raised (prefix : string).

Definition response : Type := (json_body * Z)%type.

Definition status (r : response) : Z := snd r.
Definition body (r : response) : json_body := fst r.

(** [str(n)] for an integer. *)
Definition str_of_int (n : Z) : string := NilZero.string_of_int (Z.to_int n).

(** [User.to_dict()]: the row without its password hash. *)
Record UserDict : Type := mkUserDict {
  ud_id : Z;
  ud_email : string;
  ud_username : string;
  ud_full_name : option string;
  ud_created_at : Z
}.

Definition user_to_dict (u : User) : UserDict :=
  {| ud_id := u_id u;
     ud_email := u_email u;
     ud_username := u_username u;
     ud_full_name := u_full_name u;
     ud_created_at := u_created_at u |}.

(** Bodies of the catalogue, registration and profile routes.
    [Failure] is [{'success': False, 'message': ...}]; [ServerError prefix]
    is the body of an [except Exception as e] branch, whose message is
    [prefix] followed by [str(e)]. *)
Inductive route_body : Type :=
| Failure (message : string)
| ServerError (prefix : string)
| ProductsBody (count : Z) (products : list Product)
| ProductBody (product : Product)
| RegisteredBody (message : string) (user : UserDict)
| ProfileBody (user : UserDict).

Definition route_response : Type := (route_body * Z)%type.

(** ** Request parameters *)

(** A [dict] or [MultiDict] with string keys and string values;
    [get] returns the first value stored under the key. *)
Definition dict : Type := list (string * string).

Fixpoint dict_get (d : dict) (key : string) : option string :=
  match d with
  | [] => None
  | (k, v) :: r => if String.eqb k key then Some v else dict_get r key
  end.

(** Python's [int(s)] on a string is the interpreter's: it is a parameter
    of the routes, with [None] for [ValueError].  What is used of it is that
    it reads back what [str] writes for a 64-bit integer. *)
Class Python : Type := mkPython {
  py_int : string -> option Z;
  py_int_str :
    forall n, - 2 ^ 63 <= n < 2 ^ 63 -> py_int (str_of_int n) = Some n
}.

(** A reader of base-10 numerals written in ASCII, as a sample of [int]:
    surrounding whitespace is stripped, one sign is allowed, and the digits
    may be grouped by single underscores. *)
Definition is_space (c : ascii) : bool :=
  let n := nat_of_ascii c in
  ((9 <=? n) && (n <=? 13) || (28 <=? n) && (n <=? 32))%nat.

Fixpoint lstrip (s : list ascii) : list ascii :=
  match s with
  | [] => []
  | c :: r => if is_space c then lstrip r else s
  end.

Definition strip (s : list ascii) : list ascii :=
  rev (lstrip (rev (lstrip s))).

Definition digit_of (c : ascii) : option Z :=
  let n := nat_of_ascii c in
  if ((48 <=? n) && (n <=? 57))%nat then Some (Z.of_nat n - 48) else None.

Fixpoint digits_value (acc : Z) (after_digit : bool) (s : list ascii)
  : option Z :=
  match s with
  | [] => if after_digit then Some acc else None
  | c :: r =>
    match digit_of c with
    | Some d => digits_value (10 * acc + d) true r
    | None =>
      if Ascii.eqb c "_"%char && after_digit
      then digits_value acc false r
      else None
    end
  end.

Definition ascii_int (s : string) : option Z :=
  match strip (list_ascii_of_string s) with
  | c :: r =>
    if Ascii.eqb c "-"%char then option_map Z.opp (digits_value 0 false r)
    else if Ascii.eqb c "+"%char then digits_value 0 false r
    else digits_value 0 false (c :: r)
  | [] => None
  end.

(** [request.args.get(key, default, type=int)]: the default when the key
    is absent, and also when the conversion raises [ValueError]. *)
Definition args_get_int `{Python} (args : dict) (key : string) (default : Z)
  : Z :=
  match dict_get args key with
  | None => default
  | Some raw =>
    match py_int raw with
    | Some n => n
    | None => default
    end
  end.

(** [request.args.get(key, default)] *)
Definition args_get (args : dict) (key : string) (default : string) : string :=
  match dict_get args key with
  | None => default
  | Some raw => raw
  end.

(** [s.lower()], on the ASCII letters. *)
Definition ascii_lower (c : ascii) : ascii :=
  let n := nat_of_ascii c in
  if ((65 <=? n) && (n <=? 90))%nat then ascii_of_nat (n + 32) else c.

Fixpoint lower (s : string) : string :=
  match s with
  | EmptyString => EmptyString
  | String c r => String (ascii_lower c) (lower r)
  end.

(** ** Pagination, as [Query.paginate(page, per_page, error_out=False)]
    of Flask-SQLAlchemy computes it: with [error_out=False] a page below 1
    becomes 1 and a page size below 1 becomes 20, the items are
    [limit(per_page).offset((page - 1) * per_page)], and the total is the
    row count of the query.  The database takes the offset as a [bigint]:
    beyond [max_bigint] the statement is refused ([None], a [DataError]). *)

Definition max_bigint : Z := 9223372036854775807.

Record Pagination (A : Type) : Type := mkPagination {
  pg_page : Z;
  pg_per_page : Z;
  pg_items : list A;
  pg_total : Z
}.
Arguments mkPagination {A}.
Arguments pg_page {A}.
Arguments pg_per_page {A}.
Arguments pg_items {A}.
Arguments pg_total {A}.

Definition paginate {A : Type} (rows : list A) (page per_page : Z)
  : option (Pagination A) :=
  let page := if page <? 1 then 1 else page in
  let per_page := if per_page <? 1 then 20 else per_page in
  let offset := (page - 1) * per_page in
  if offset >? max_bigint then None
  else
    Some {| pg_page := page;
            pg_per_page := per_page;
            pg_items :=
              firstn (Z.to_nat per_page) (skipn (Z.to_nat offset) rows);
            pg_total := Z.of_nat (List.length rows) |}.

(** [Pagination.pages]: [0] when there is no row, else
    [ceil(total / per_page)]. *)
Definition pages {A : Type} (pg : Pagination A) : Z :=
  if pg_total pg =? 0 then 0
  else (pg_total pg + pg_per_page pg - 1) / pg_per_page pg.

(** The order the database uses for [ORDER BY] on a text column. *)
Class Collation : Type := mkCollation {
  coll_leb : string -> string -> bool;
  coll_total : forall a b, coll_leb a b = true \/ coll_leb b a = true
}.

(** Byte order, the [C] collation. *)
Definition byte_collation : Collation :=
  {| coll_leb := String.leb; coll_total := String.leb_total |}.

(** ** Favourites engine, [products/product_routes.py] *)

Module ProductRoutes.

(** ROUTE 4, [add_to_favorite].  [now] is the value of
    [datetime.utcnow()] taken by the column default at insert. *)
Definition add_to_favorite (now : Z) (st : Store) (user_id product_id : Z)
  : Store * response :=
  match User_get st user_id with
  | None => (st, (Msg false "User not found", 404))
  | Some _ =>
    match Product_get st product_id with
    | None => (st, (Msg false "Product not found", 404))
    | Some _ =>
      match favorite_first st user_id product_id with
      | Some _ => (st, (Msg false "Product already in favorites", 409))
      | None =>
        let new_favorite :=
          {| f_id := favorite_seq st;
             f_user_id := user_id;
             f_product_id := product_id;
             f_added_at := now |} in
        let st' :=
          {| users := users st;
             products := products st;
             user_favorites := user_favorites st ++ [new_favorite];
             favorite_seq := favorite_seq st + 1 |} in
        (st', (FavoriteBody "Product added to favorites"
                            (favorite_to_dict st' new_favorite), 201))
      end
    end
  end.

(** [db.session.delete(favorite)]: [DELETE ... WHERE id = favorite.id]. *)
Definition delete_favorite (st : Store) (favorite : UserFavorite) : Store :=
  {| users := users st;
     products := products st;
     user_favorites :=
       filter (fun f => negb (f_id f =? f_id favorite)) (user_favorites st);
     favorite_seq := favorite_seq st |}.

(** ROUTE 5, [remove_from_favorite]. *)
Definition remove_from_favorite (st : Store) (user_id product_id : Z)
  : Store * response :=
  match favorite_first st user_id product_id with
  | None => (st, (Msg false "Product is not in favorites", 404))
  | Some favorite =>
    (delete_favorite st favorite,
     (Msg true "Product removed from favorites", 200))
  end.

(** ROUTE 6, [is_favorite]. *)
Definition is_favorite (st : Store) (user_id product_id : Z) : response :=
  match favorite_first st user_id product_id with
  | Some _ => (IsFavoriteBody true, 200)
  | None => (IsFavoriteBody false, 200)
  end.

(** ROUTE 8, [clear_all_favorites]. *)
Definition clear_all_favorites (st : Store) (user_id : Z) : Store * response :=
  let count := Z.of_nat (List.length (favorites_of st user_id)) in
  let st' :=
    {| users := users st;
       products := products st;
       user_favorites :=
         filter (fun f => negb (f_user_id f =? user_id)) (user_favorites st);
       favorite_seq := favorite_seq st |} in
  (st', (ClearedBody
           ("Deleted " ++ str_of_int count ++ " products from favorites")%string
           count, 200)).

(** The three parameters of ROUTE 7 after the validation block. *)
Definition clamp_page (page : Z) : Z := if page <? 1 then 1 else page.

Definition clamp_per_page (per_page : Z) : Z :=
  let per_page := if per_page <? 1 then 12 else per_page in
  if per_page >? 100 then 100 else per_page.

(** The comparisons of the four [order_by] clauses. *)
Definition price_asc (a b : UserFavorite * Product) : bool :=
  Qle_bool (p_price (snd a)) (p_price (snd b)).

Definition price_desc (a b : UserFavorite * Product) : bool :=
  Qle_bool (p_price (snd b)) (p_price (snd a)).

Definition newest (a b : UserFavorite) : bool :=
  f_added_at b <=? f_added_at a.

Definition name_asc `{Collation} (a b : UserFavorite * Product) : bool :=
  coll_leb (p_name (snd a)) (p_name (snd b)).

(** The sorted query of ROUTE 7: the [UserFavorite] rows it yields. *)
Definition sorted_query `{Collation} (st : Store) (user_id : Z)
  (sort_by : string) : list UserFavorite :=
  let query := favorites_of st user_id in
  if String.eqb sort_by "price_asc" then
    map fst (order_by price_asc (join_product st query))
  else if String.eqb sort_by "price_desc" then
    map fst (order_by price_desc (join_product st query))
  else if String.eqb sort_by "newest" then
    order_by newest query
  else
    map fst (order_by name_asc (join_product st query)).

(** [[fav.product.to_dict() for fav in items]]; [None] is the
    [AttributeError] raised when [fav.product] is [None]. *)
Fixpoint products_of (st : Store) (items : list UserFavorite)
  : option (list Product) :=
  match items with
  | [] => Some []
  | fav :: r =>
    match Product_get st (f_product_id fav) with
    | None => None
    | Some p =>
      match products_of st r with
      | None => None
      | Some ps => Some (p :: ps)
      end
    end
  end.

(** [paginated] of ROUTE 7; [None] when the database refuses the
    statement. *)
Definition favorites_page `{Collation} `{Python} (st : Store) (user_id : Z)
  (args : dict) : option (Pagination UserFavorite) :=
  let page := clamp_page (args_get_int args "page" 1) in
  let per_page := clamp_per_page (args_get_int args "per_page" 12) in
  let sort_by := args_get args "sort_by" "name" in
  paginate (sorted_query st user_id sort_by) page per_page.

(** ROUTE 7, [get_my_favorites].  Both errors are caught by the
    [except] branch and answered with a 500. *)
Definition get_my_favorites `{Collation} `{Python} (st : Store) (user_id : Z)
  (args : dict) : response :=
  let page := clamp_page (args_get_int args "page" 1) in
  let per_page := clamp_per_page (args_get_int args "per_page" 12) in
  let sort_by := args_get args "sort_by" "name" in
  let query := sorted_query st user_id sort_by in
  let total := Z.of_nat (List.length query) in
  match paginate query page per_page with
  | None => (Raised "Error: ", 500)
  | Some paginated =>
    match products_of st (pg_items paginated) with
    | None =>
      (Msg false "Error: 'NoneType' object has no attribute 'to_dict'", 500)
    | Some favorites_data =>
      (FavoritesBody total page per_page (pages paginated) favorites_data,
       200)
    end
  end.

(** [db.session.query(Product.category).distinct()
       .filter(Product.category != None).all()] *)
Definition category_rows (st : Store) : list string :=
  nodup string_dec
    (flat_map (fun p => match p_category p with
                        | Some c => [c]
                        | None => []
                        end) (products st)).

(** ROUTE 3, [get_categories]: [sorted([cat[0] for cat in categories])]. *)
Definition get_categories (st : Store) : response :=
  let categories := category_rows st in
  let category_list := order_by String.leb categories in
  (CategoriesBody category_list, 200).

(** ROUTE 1, [get_products]: each filter is applied when its parameter is
    present and not empty. *)
Definition get_products (st : Store) (args : dict) : route_response :=
  let query := products st in
  let query :=
    match dict_get args "category" with
    | Some category =>
      if String.eqb category "" then query
      else filter (has_category category) query
    | None => query
    end in
  let query :=
    match dict_get args "in_stock" with
    | Some in_stock =>
      if String.eqb in_stock "" then query
      else
        let in_stock := String.eqb (lower in_stock) "true" in
        filter (fun p => Bool.eqb (p_in_stock p) in_stock) query
    | None => query
    end in
  (ProductsBody (Z.of_nat (List.length query)) query, 200).

(** ROUTE 2, [get_product]. *)
Definition get_product (st : Store) (product_id : Z) : route_response :=
  match Product_get st product_id with
  | None => (Failure "Product not found", 404)
  | Some product => (ProductBody product, 200)
  end.

End ProductRoutes.

(** ** [app.py] *)

Module App.

(** [get_categories] of [app.py]:
    [sorted([cat[0] for cat in categories if cat[0]])]. *)
Definition get_categories (st : Store) : response :=
  let categories := ProductRoutes.category_rows st in
  let category_list :=
    order_by String.leb
      (filter (fun cat => negb (String.eqb cat "")) categories) in
  (CategoriesBody category_list, 200).

End App.

(** ** [auth/auth_routes.py] *)

Module AuthRoutes.

Section Login.

(** [werkzeug.security.check_password_hash(pwhash, password)]; [None]
    when it raises, as it does on a password it cannot encode (JSON allows
    a string with a lone surrogate). *)
Variable check_password_hash : string -> string -> option bool.

(** [flask_jwt_extended.create_access_token(identity=...)] *)
Variable create_access_token : string -> string.

(** [User.check_password] *)
Definition check_password (user : User) (password : string) : option bool :=
  check_password_hash (u_password_hash user) password.

(** ROUTE 2, [login], on a JSON object with string fields.  The first
    test is [not data.get('email') or not data.get('password')]: a field
    is rejected when it is absent and when it is empty.  In
    [not user or not user.check_password(...)] the password is checked only
    when a user was found, and an exception of the check is caught by the
    [except] branch and answered with a 500. *)
Definition login (st : Store) (data : dict) : response :=
  match dict_get data "email", dict_get data "password" with
  | Some email, Some password =>
    if String.eqb email "" || String.eqb password "" then
      (Msg false "Email и пароль обязательны", 400)
    else
      let user := User_by_email st email in
      let rejected :=
        match user with
        | None => Some true
        | Some u => option_map negb (check_password u password)
        end in
      match rejected, user with
      | None, _ => (Raised "Ошибка при входе: ", 500)
      | Some false, Some u =>
        let access_token := create_access_token (str_of_int (u_id u)) in
        (LoginBody "Вход успешен" access_token u, 200)
      | Some _, _ => (Msg false "Неправильный email или пароль", 401)
      end
  | _, _ => (Msg false "Email и пароль обязательны", 400)
  end.

End Login.

Section Register.

(** [werkzeug.security.generate_password_hash(password)] *)
Variable generate_password_hash : string -> string.

(** The database's assignment of a string to a [String(n)] column;
    [None] is its "value too long" error. *)
Variable varchar : nat -> string -> option string.

(** ROUTE 1, [register], on a JSON object with string fields.  [new_id] is
    the value the insert draws from the sequence of [users.id] and [now] the
    one [datetime.utcnow()] gives to [created_at].  The first test,
    [all(k in data for k in [...])], asks for the three keys and accepts
    empty values. *)
Definition register (new_id now : Z) (st : Store) (data : dict)
  : Store * route_response :=
  match dict_get data "email", dict_get data "username",
        dict_get data "password" with
  | Some email, Some username, Some password =>
    match User_by_email st email with
    | Some _ =>
      (st, (Failure "Пользователь с таким email уже существует", 409))
    | None =>
      match User_by_username st username with
      | Some _ => (st, (Failure "Это имя пользователя уже занято", 409))
      | None =>
        let full_name :=
          match dict_get data "full_name" with
          | Some v => v
          | None => ""
          end in
        let failed := (st, (ServerError "Ошибка при регистрации: ", 500)) in
        match varchar 120 email, varchar 80 username,
              varchar 255 (generate_password_hash password),
              varchar 120 full_name with
        | Some e, Some n, Some h, Some f =>
          let new_user :=
            {| u_id := new_id; u_email := e; u_username := n;
               u_password_hash := h; u_full_name := Some f;
               u_created_at := now |} in
          match insert_user st new_user with
          | Some st' =>
            (st', (RegisteredBody "Аккаунт успешно создан"
                                  (user_to_dict new_user), 201))
          | None => failed
          end
        | _, _, _, _ => failed
        end
      end
    end
  | _, _, _ => (st, (Failure "Заполните все обязательные поля", 400))
  end.

End Register.

(** ROUTE 3, [get_profile]; [identity] is the subject of the token,
    [get_jwt_identity()]. *)
Definition get_profile `{Python} (st : Store) (identity : string)
  : route_response :=
  match py_int identity with
  | None => (ServerError "Ошибка: ", 500)
  | Some user_id =>
    match User_get st user_id with
    | None => (Failure "Пользователь не найден", 404)
    | Some user => (ProfileBody (user_to_dict user), 200)
    end
  end.

End AuthRoutes.

Import ProductRoutes.

(** ** Integrity constraints declared in [models.py] *)

Fixpoint distinct_by {A : Type} (same : A -> A -> bool) (l : list A) : bool :=
  match l with
  | [] => true
  | x :: r => negb (existsb (same x) r) && distinct_by same r
  end.

(** [UniqueConstraint('user_id', 'product_id', name='unique_user_product')] *)
Definition unique_user_product (st : Store) : bool :=
  distinct_by (fun f g => same_pair (f_user_id f) (f_product_id f) g)
              (user_favorites st).

(** [products.id] is a primary key. *)
Definition products_pk (st : Store) : bool :=
  distinct_by (fun p q => p_id p =? p_id q) (products st).

(** [user_favorites.id] is a primary key drawn from the sequence. *)
Definition favorites_pk (st : Store) : bool :=
  distinct_by (fun f g => f_id f =? f_id g) (user_favorites st)
  && forallb (fun f => f_id f <? favorite_seq st) (user_favorites st).

(** The two [ForeignKey] columns of [user_favorites]. *)
Definition favorites_fk (st : Store) : bool :=
  forallb (fun f =>
             existsb (fun u => u_id u =? f_user_id f) (users st)
             && existsb (fun p => p_id p =? f_product_id f) (products st))
          (user_favorites st).

Definition store_ok (st : Store) : bool :=
  unique_user_product st && products_pk st && favorites_pk st
  && favorites_fk st.

(** ** Observations used to state the properties *)

Definition user_exists (st : Store) (user_id : Z) : bool :=
  existsb (fun u => u_id u =? user_id) (users st).

Definition product_exists (st : Store) (product_id : Z) : bool :=
  existsb (fun p => p_id p =? product_id) (products st).

Definition favorite_exists (st : Store) (user_id product_id : Z) : bool :=
  existsb (same_pair user_id product_id) (user_favorites st).

(** Number of [user_favorites] rows for a pair. *)
Definition pair_count (st : Store) (user_id product_id : Z) : nat :=
  List.length (filter (same_pair user_id product_id) (user_favorites st)).

(** Number of [user_favorites] rows of a user. *)
Definition favorite_count (st : Store) (user_id : Z) : nat :=
  List.length (favorites_of st user_id).

(** The row a successful Add inserts, and the store once it is committed. *)
Definition added_row (now : Z) (st : Store) (user_id product_id : Z)
  : UserFavorite :=
  {| f_id := favorite_seq st; f_user_id := user_id;
     f_product_id := product_id; f_added_at := now |}.

Definition store_with (st : Store) (f : UserFavorite) : Store :=
  {| users := users st; products := products st;
     user_favorites := user_favorites st ++ [f];
     favorite_seq := favorite_seq st + 1 |}.

(** A small database used to exercise the statements. *)
Definition demo_product (id : Z) (name : string) (price : Q)
  (category : option string) : Product :=
  {| p_id := id; p_name := name; p_description := None; p_price := price;
     p_category := category; p_model_path := None; p_image_url := None;
     p_material := None; p_color := None; p_dimensions := [];
     p_in_stock := true; p_created_at := 0 |}.

Definition demo_user (id : Z) (email username hash : string) : User :=
  {| u_id := id; u_email := email; u_username := username;
     u_password_hash := hash; u_full_name := None; u_created_at := 0 |}.

Definition demo_store : Store :=
  {| users := [demo_user 1 "a@x.com" "a" "pw-a"; demo_user 2 "b@x.com" "b" "pw-b"];
     products :=
       [demo_product 7 "chair" (4999 # 100) (Some "seating");
        demo_product 8 "table" (120 # 1) (Some "tables");
        demo_product 9 "lamp" (35 # 2) None];
     user_favorites :=
       [mkUserFavorite 1 1 8 10; mkUserFavorite 2 2 7 11;
        mkUserFavorite 3 1 9 12];
     favorite_seq := 4 |}.

(** One user whose favourites are the [n] products of the catalogue. *)
Definition bulk_store (n : nat) : Store :=
  let ids := map Z.of_nat (seq 1 n) in
  {| users := [demo_user 1 "a@x.com" "a" "pw-a"];
     products := map (fun i => demo_product i "item" (i # 1) None) ids;
     user_favorites := map (fun i => mkUserFavorite i 1 i i) ids;
     favorite_seq := Z.of_nat n + 1 |}.

(** A catalogue with a product whose category is the empty string. *)
Definition blank_category_store : Store :=
  {| users := [];
     products := [demo_product 1 "stool" (15 # 1) (Some "");
                  demo_product 2 "sofa" (900 # 1) (Some "seating")];
     user_favorites := [];
     favorite_seq := 1 |}.

(** Some user has this email. *)
Definition email_exists (st : Store) (email : string) : bool :=
  existsb (fun u => String.eqb (u_email u) email) (users st).

(** The bytes of a lone surrogate, U+D800: a string JSON can carry and
    UTF-8 cannot encode. *)
Definition lone_surrogate : string :=
  String (ascii_of_nat 237)
    (String (ascii_of_nat 160) (String (ascii_of_nat 128) EmptyString)).

(** A sample of the hash library: the hash is the password itself, and the
    check raises on the lone surrogate. *)
Definition sample_check (pwhash password : string) : option bool :=
  if String.eqb password lone_surrogate then None
  else Some (String.eqb pwhash password).

(** The offset of the page a request asks for fits the database's
    [bigint]. *)
Definition offset_fits `{Python} (args : dict) : bool :=
  (clamp_page (args_get_int args "page" 1) - 1)
  * clamp_per_page (args_get_int args "per_page" 12) <=? max_bigint.

(** The order of two favourites by the price, and by the name, of their
    products. *)
Definition by_price (st : Store) (a b : UserFavorite) : Prop :=
  exists pa pb, Product_get st (f_product_id a) = Some pa
                /\ Product_get st (f_product_id b) = Some pb
                /\ (p_price pa <= p_price pb)%Q.

Definition by_name `{Collation} (st : Store) (a b : UserFavorite) : Prop :=
  exists pa pb, Product_get st (f_product_id a) = Some pa
                /\ Product_get st (f_product_id b) = Some pb
                /\ coll_leb (p_name pa) (p_name pb) = true.

(** The orders the sort clauses of ROUTE 7 promise. *)
Definition price_le (a b : Product) : Prop := (p_price a <= p_price b)%Q.
Definition price_ge (a b : Product) : Prop := (p_price b <= p_price a)%Q.
Definition added_ge (a b : UserFavorite) : Prop := f_added_at b <= f_added_at a.
Definition name_le `{Collation} (a b : Product) : Prop :=
  coll_leb (p_name a) (p_name b) = true.

(** [fav.product] is [p]. *)
Definition product_of (st : Store) (fav : UserFavorite) (p : Product) : Prop :=
  Product_get st (f_product_id fav) = Some p.

(** ** Constraints of the [users] table and further observations *)

(** [users.id] is a primary key. *)
Definition users_pk (st : Store) : bool :=
  distinct_by (fun a b => u_id a =? u_id b) (users st).

(** [users.email] is [unique=True]. *)
Definition users_email_unique (st : Store) : bool :=
  distinct_by (fun a b => String.eqb (u_email a) (u_email b)) (users st).

(** [users.username] is [unique=True]. *)
Definition users_username_unique (st : Store) : bool :=
  distinct_by (fun a b => String.eqb (u_username a) (u_username b)) (users st).

Definition users_ok (st : Store) : bool :=
  users_pk st && users_email_unique st && users_username_unique st.

(** Some user has this username. *)
Definition username_exists (st : Store) (username : string) : bool :=
  existsb (fun u => String.eqb (u_username u) username) (users st).

(** A database whose [String(n)] columns take the strings of at most [n]
    bytes as they are. *)
Definition varchar_bytes (n : nat) (s : string) : option string :=
  if (String.length s <=? n)%nat then Some s else None.

(** The products ROUTE 1 lists for a request. *)
Definition listed (st : Store) (args : dict) : list Product :=
  match fst (get_products st args) with
  | ProductsBody _ ps => ps
  | _ => []
  end.

(** The value of a query parameter that is present and not empty. *)
Definition given (args : dict) (key : string) : option string :=
  match dict_get args key with
  | Some v => if String.eqb v "" then None else Some v
  | None => None
  end.

(** A catalogue with one product in stock and one out of stock. *)
Definition stock_store : Store :=
  {| users := [];
     products :=
       [demo_product 1 "desk" (80 # 1) None;
        {| p_id := 2; p_name := "bench"; p_description := None;
           p_price := 60 # 1; p_category := None; p_model_path := None;
           p_image_url := None; p_material := None; p_color := None;
           p_dimensions := []; p_in_stock := false; p_created_at := 0 |}];
     user_favorites := [];
     favorite_seq := 1 |}.

(** ** Lists: [find], [existsb], [filter] and [distinct_by] *)

Section ListFacts.

Context {A : Type}.

Lemma find_none_existsb (f : A -> bool) (l : list A) :
  find f l = None <-> existsb f l = false.
Proof.
  induction l as [|x r IH]; simpl.
  - tauto.
  - destruct (f x); simpl; [split; discriminate | exact IH].
Qed.

Lemma find_some_existsb (f : A -> bool) (l : list A) :
  find f l <> None <-> existsb f l = true.
Proof.
  rewrite find_none_existsb. destruct (existsb f l); split; congruence.
Qed.

Lemma find_snoc_none (f : A -> bool) (l : list A) (x : A) :
  find f l = None -> f x = true -> find f (l ++ [x]) = Some x.
Proof.
  induction l as [|y r IH]; simpl; intros Hn Hx.
  - now rewrite Hx.
  - destruct (f y); [discriminate | auto].
Qed.

Lemma existsb_filter_false (f q : A -> bool) (l : list A) :
  existsb f l = false -> existsb f (filter q l) = false.
Proof.
  induction l as [|x r IH]; simpl; auto.
  intros H. apply orb_false_iff in H as [Hx Hr].
  destruct (q x); simpl; [rewrite Hx|]; auto.
Qed.

Lemma forallb_filter (f q : A -> bool) (l : list A) :
  forallb f l = true -> forallb f (filter q l) = true.
Proof.
  induction l as [|x r IH]; simpl; auto.
  intros H. apply andb_true_iff in H as [Hx Hr].
  destruct (q x); simpl; [rewrite Hx|]; auto.
Qed.

Lemma distinct_by_filter (same : A -> A -> bool) (q : A -> bool)
  (l : list A) :
  distinct_by same l = true -> distinct_by same (filter q l) = true.
Proof.
  induction l as [|x r IH]; simpl; auto.
  intros H. apply andb_true_iff in H as [Hx Hr].
  destruct (q x); simpl; auto.
  apply negb_true_iff in Hx.
  now rewrite (existsb_filter_false _ q _ Hx), IH.
Qed.

Lemma distinct_by_snoc (same : A -> A -> bool) (l : list A) (n : A) :
  distinct_by same (l ++ [n])
  = distinct_by same l && negb (existsb (fun x => same x n) l).
Proof.
  induction l as [|x r IH]; simpl; auto.
  rewrite existsb_app, IH. simpl.
  destruct (existsb (same x) r), (same x n), (distinct_by same r);
    simpl; auto.
Qed.

Lemma filter_none (f : A -> bool) (l : list A) :
  existsb f l = false -> filter f l = [].
Proof.
  induction l as [|x r IH]; simpl; auto.
  intros H. apply orb_false_iff in H as [Hx Hr]. now rewrite Hx, IH.
Qed.

End ListFacts.

(** ** [int(str(n))] *)

Lemma digits_value_step (acc k : Z) (b : bool) (c : ascii) (r : list ascii) :
  digit_of c = Some k ->
  digits_value acc b (c :: r) = digits_value (10 * acc + k) true r.
Proof. intros E. simpl. now rewrite E. Qed.

Ltac read_digit :=
  match goal with
  | |- context [digits_value ?a ?b (?c :: ?r)] =>
    let k := eval vm_compute in (digit_of c) in
    match k with
    | Some ?v => rewrite (digits_value_step a v b c r eq_refl)
    end
  end.

Ltac read_digit_in H :=
  match type of H with
  | context [digits_value ?a ?b (?c :: ?r)] =>
    let k := eval vm_compute in (digit_of c) in
    match k with
    | Some ?v => rewrite (digits_value_step a v b c r eq_refl) in H
    end
  end.

Lemma digits_value_acc (d : Decimal.uint) (p : positive) :
  digits_value (Z.pos p) true
    (list_ascii_of_string (NilEmpty.string_of_uint d))
  = Some (Z.pos (Pos.of_uint_acc d p)).
Proof.
  revert p. induction d as [|d IH|d IH|d IH|d IH|d IH|d IH|d IH|d IH|d IH|d IH];
    intros p; cbn [NilEmpty.string_of_uint list_ascii_of_string Pos.of_uint_acc];
    [reflexivity|..];
    read_digit; rewrite <- IH; f_equal; lia.
Qed.

Lemma digits_value_zero (d : Decimal.uint) :
  digits_value 0 true (list_ascii_of_string (NilEmpty.string_of_uint d))
  = Some (Z.of_N (Pos.of_uint d)).
Proof.
  induction d as [|d IH|d IH|d IH|d IH|d IH|d IH|d IH|d IH|d IH|d IH];
    cbn [NilEmpty.string_of_uint list_ascii_of_string Pos.of_uint];
    [reflexivity|..];
    read_digit; [exact IH|..]; apply digits_value_acc.
Qed.

Lemma digits_not_space (d : Decimal.uint) :
  Forall (fun c => is_space c = false)
         (list_ascii_of_string (NilEmpty.string_of_uint d)).
Proof. induction d; simpl; constructor; auto. Qed.

Lemma lstrip_keeps (l : list ascii) :
  Forall (fun c => is_space c = false) l -> lstrip l = l.
Proof. intros F. destruct F as [|c r E F]; simpl; [|rewrite E]; auto. Qed.

Lemma strip_keeps (l : list ascii) :
  Forall (fun c => is_space c = false) l -> strip l = l.
Proof.
  intros F. unfold strip. rewrite (lstrip_keeps l F).
  rewrite lstrip_keeps by now apply Forall_rev.
  apply rev_involutive.
Qed.

(** The digits [str] writes for a positive number, read back. *)
Lemma digits_of_positive (p : positive) :
  digits_value 0 false
    (list_ascii_of_string (NilEmpty.string_of_uint (Pos.to_uint p)))
  = Some (Z.pos p).
Proof.
  assert (V := digits_value_zero (Pos.to_uint p)).
  rewrite DecimalPos.Unsigned.of_to in V.
  assert (N := DecimalPos.Unsigned.to_uint_nonnil p).
  destruct (Pos.to_uint p); [congruence|..];
    cbn [NilEmpty.string_of_uint list_ascii_of_string] in *;
    read_digit_in V; read_digit; exact V.
Qed.

Lemma ascii_int_positive (p : positive) :
  ascii_int (NilEmpty.string_of_uint (Pos.to_uint p)) = Some (Z.pos p).
Proof.
  unfold ascii_int. rewrite strip_keeps by apply digits_not_space.
  assert (V := digits_of_positive p).
  assert (N := DecimalPos.Unsigned.to_uint_nonnil p).
  destruct (Pos.to_uint p); [congruence|..]; exact V.
Qed.

Lemma string_of_uint_nonnil (d : Decimal.uint) :
  d <> Decimal.Nil ->
  NilZero.string_of_uint d = NilEmpty.string_of_uint d.
Proof. destruct d; [congruence|..]; reflexivity. Qed.

(** The sample reader reads back what [str] writes. *)
Lemma int_of_str (n : Z) : ascii_int (str_of_int n) = Some n.
Proof.
  unfold str_of_int. destruct n as [|p|p]; [reflexivity|..].
  - cbn [Z.to_int NilZero.string_of_int].
    rewrite string_of_uint_nonnil
      by apply DecimalPos.Unsigned.to_uint_nonnil.
    apply ascii_int_positive.
  - cbn [Z.to_int NilZero.string_of_int].
    rewrite string_of_uint_nonnil
      by apply DecimalPos.Unsigned.to_uint_nonnil.
    unfold ascii_int. cbn [list_ascii_of_string].
    rewrite strip_keeps
      by (constructor; [reflexivity | apply digits_not_space]).
    change (Ascii.eqb "-" "-") with true. cbv iota.
    now rewrite digits_of_positive.
Qed.

(** The sample reader as an instance of [int]. *)
Lemma ascii_python : Python.
Proof.
  refine {| py_int := ascii_int |}.
  intros n _. apply int_of_str.
Defined.

(** ** The engine's operations, case by case *)

Lemma User_get_exists (st : Store) (u : Z) :
  User_get st u = None <-> user_exists st u = false.
Proof. apply find_none_existsb. Qed.

Lemma Product_get_exists (st : Store) (p : Z) :
  Product_get st p = None <-> product_exists st p = false.
Proof. apply find_none_existsb. Qed.

Lemma favorite_first_exists (st : Store) (u p : Z) :
  favorite_first st u p = None <-> favorite_exists st u p = false.
Proof. apply find_none_existsb. Qed.

(** The four outcomes of [add_to_favorite], in the order the handler
    tests them. *)
Lemma add_to_favorite_cases (now : Z) (st : Store) (u p : Z) :
  (user_exists st u = false
   /\ add_to_favorite now st u p = (st, (Msg false "User not found", 404)))
  \/ (user_exists st u = true /\ product_exists st p = false
      /\ add_to_favorite now st u p
         = (st, (Msg false "Product not found", 404)))
  \/ (user_exists st u = true /\ product_exists st p = true
      /\ favorite_exists st u p = true
      /\ add_to_favorite now st u p
         = (st, (Msg false "Product already in favorites", 409)))
  \/ (user_exists st u = true /\ product_exists st p = true
      /\ favorite_exists st u p = false
      /\ add_to_favorite now st u p
         = (store_with st (added_row now st u p),
            (FavoriteBody "Product added to favorites"
               (favorite_to_dict (store_with st (added_row now st u p))
                                 (added_row now st u p)), 201))).
Proof.
  unfold add_to_favorite.
  destruct (User_get st u) eqn:Hu.
  2:{ left. split; [now apply User_get_exists | reflexivity]. }
  assert (Eu : user_exists st u = true)
    by (apply find_some_existsb; unfold User_get in Hu; congruence).
  destruct (Product_get st p) eqn:Hp.
  2:{ right; left. repeat split; auto. now apply Product_get_exists. }
  assert (Ep : product_exists st p = true)
    by (apply find_some_existsb; unfold Product_get in Hp; congruence).
  destruct (favorite_first st u p) eqn:Hf.
  - right; right; left. repeat split; auto.
    apply find_some_existsb. unfold favorite_first in Hf. congruence.
  - right; right; right. repeat split; auto.
    now apply favorite_first_exists.
Qed.

Lemma same_pair_refl (now : Z) (st : Store) (u p : Z) :
  same_pair u p (added_row now st u p) = true.
Proof. unfold same_pair; simpl. now rewrite !Z.eqb_refl. Qed.

Lemma same_pair_sym (f g : UserFavorite) :
  same_pair (f_user_id f) (f_product_id f) g
  = same_pair (f_user_id g) (f_product_id g) f.
Proof. unfold same_pair. now rewrite (Z.eqb_sym (f_user_id g)), (Z.eqb_sym (f_product_id g)). Qed.

Lemma same_pair_eq (u p : Z) (f : UserFavorite) :
  same_pair u p f = true <-> f_user_id f = u /\ f_product_id f = p.
Proof. unfold same_pair. rewrite andb_true_iff, !Z.eqb_eq. tauto. Qed.

(** The uniqueness constraint read as a count. *)
Lemma unique_pair_count (st : Store) :
  unique_user_product st = true -> forall a b, (pair_count st a b <= 1)%nat.
Proof.
  unfold unique_user_product, pair_count.
  induction (user_favorites st) as [|x r IH]; simpl; intros H a b; [lia|].
  apply andb_true_iff in H as [Hx Hr]. apply negb_true_iff in Hx.
  destruct (same_pair a b x) eqn:E; [|now apply IH].
  apply same_pair_eq in E as [<- <-].
  rewrite (filter_none (same_pair (f_user_id x) (f_product_id x)) r Hx).
  simpl. lia.
Qed.

(** ** The constraints are preserved *)

Lemma existsb_same (A : Type) (f g : A -> bool) (l : list A) :
  (forall x, f x = g x) -> existsb f l = existsb g l.
Proof. intros E. induction l as [|x r IH]; simpl; [|rewrite E, IH]; auto. Qed.

Lemma forallb_weaken (A : Type) (f g : A -> bool) (l : list A) :
  (forall x, f x = true -> g x = true) ->
  forallb f l = true -> forallb g l = true.
Proof.
  intros E. induction l as [|x r IH]; simpl; auto.
  intros H. apply andb_true_iff in H as [Hx Hr]. now rewrite (E x Hx), IH.
Qed.

Lemma below_seq_fresh (l : list UserFavorite) (n : Z) :
  forallb (fun f => f_id f <? n) l = true ->
  existsb (fun f => f_id f =? n) l = false.
Proof.
  induction l as [|x r IH]; simpl; auto.
  intros H. apply andb_true_iff in H as [Hx Hr]. rewrite (IH Hr).
  apply Z.ltb_lt in Hx. apply orb_false_iff; split; auto.
  apply Z.eqb_neq. lia.
Qed.

(** A stored favourite refers to a stored user and a stored product. *)
Lemma favorite_refers (st : Store) (u p : Z) :
  favorites_fk st = true -> favorite_exists st u p = true ->
  user_exists st u = true /\ product_exists st p = true.
Proof.
  unfold favorites_fk, favorite_exists, user_exists, product_exists.
  induction (user_favorites st) as [|x r IH]; simpl; [discriminate|].
  intros H E. apply andb_true_iff in H as [Hx Hr].
  apply orb_true_iff in E as [E|E]; [|now apply IH].
  apply same_pair_eq in E as [<- <-]. now apply andb_true_iff in Hx.
Qed.

Lemma store_ok_parts (st : Store) :
  store_ok st = true <->
  unique_user_product st = true /\ products_pk st = true
  /\ favorites_pk st = true /\ favorites_fk st = true.
Proof. unfold store_ok. rewrite !andb_true_iff. tauto. Qed.

Lemma store_ok_insert (now : Z) (st : Store) (u p : Z) :
  store_ok st = true ->
  user_exists st u = true -> product_exists st p = true ->
  favorite_exists st u p = false ->
  store_ok (store_with st (added_row now st u p)) = true.
Proof.
  rewrite !store_ok_parts. intros (Hu & Hp & Hk & Hf) Eu Ep Ef.
  unfold unique_user_product, products_pk, favorites_pk, favorites_fk in *.
  simpl. apply andb_true_iff in Hk as [Hd Hb].
  repeat split; auto.
  - rewrite distinct_by_snoc, Hu. simpl. apply negb_true_iff.
    rewrite <- Ef. unfold favorite_exists. apply existsb_same.
    intros x. rewrite same_pair_sym. reflexivity.
  - rewrite distinct_by_snoc, Hd, forallb_app. simpl.
    assert (Fr := below_seq_fresh _ _ Hb).
    rewrite Fr.
    simpl. rewrite andb_true_r.
    assert ((favorite_seq st <? favorite_seq st + 1) = true) as ->
      by (apply Z.ltb_lt; lia).
    rewrite andb_true_r. revert Hb. apply forallb_weaken.
    intros x Hx. apply Z.ltb_lt in Hx. apply Z.ltb_lt. lia.
  - rewrite forallb_app, Hf. simpl.
    unfold user_exists in Eu. unfold product_exists in Ep.
    now rewrite Eu, Ep.
Qed.

Lemma store_ok_keep (st : Store) (q : UserFavorite -> bool) :
  store_ok st = true ->
  store_ok {| users := users st; products := products st;
              user_favorites := filter q (user_favorites st);
              favorite_seq := favorite_seq st |} = true.
Proof.
  rewrite !store_ok_parts. intros (Hu & Hp & Hk & Hf).
  unfold unique_user_product, products_pk, favorites_pk, favorites_fk in *.
  simpl. apply andb_true_iff in Hk as [Hd Hb].
  repeat split; auto using distinct_by_filter, forallb_filter.
  apply andb_true_iff; split; auto using distinct_by_filter, forallb_filter.
Qed.

Lemma store_ok_add (now : Z) (st : Store) (u p : Z) :
  store_ok st = true -> store_ok (fst (add_to_favorite now st u p)) = true.
Proof.
  intros H.
  destruct (add_to_favorite_cases now st u p)
    as [(_ & ->)|[(_ & _ & ->)|[(_ & _ & _ & ->)|(Eu & Ep & Ef & ->)]]];
    simpl; auto using store_ok_insert.
Qed.

Lemma store_ok_remove (st : Store) (u p : Z) :
  store_ok st = true -> store_ok (fst (remove_from_favorite st u p)) = true.
Proof.
  intros H. unfold remove_from_favorite.
  destruct (favorite_first st u p); simpl; auto.
  now apply store_ok_keep.
Qed.

Lemma store_ok_clear (st : Store) (u : Z) :
  store_ok st = true -> store_ok (fst (clear_all_favorites st u)) = true.
Proof. intros H. simpl. now apply store_ok_keep. Qed.

Lemma store_ok_unique (st : Store) :
  store_ok st = true -> unique_user_product st = true.
Proof. rewrite store_ok_parts. tauto. Qed.

(** ** C1 *)

(** C1. In a store that satisfies the schema's constraints no pair
    (user id, product id) has more than one favourite row; Add, Remove and
    ClearAll return a store that again satisfies the constraints, so the
    bound holds after each of them; and an Add on a pair that is present
    answers 409 and returns the store as it was. *)
Theorem favorite_pair_at_most_once (now : Z) (st : Store) (u p : Z) :
  store_ok st = true ->
  (forall a b, (pair_count st a b <= 1)%nat)
  /\ (store_ok (fst (add_to_favorite now st u p)) = true
      /\ forall a b, (pair_count (fst (add_to_favorite now st u p)) a b <= 1)%nat)
  /\ (store_ok (fst (remove_from_favorite st u p)) = true
      /\ forall a b, (pair_count (fst (remove_from_favorite st u p)) a b <= 1)%nat)
  /\ (store_ok (fst (clear_all_favorites st u)) = true
      /\ forall a b, (pair_count (fst (clear_all_favorites st u)) a b <= 1)%nat)
  /\ (favorite_exists st u p = true ->
      add_to_favorite now st u p
      = (st, (Msg false "Product already in favorites", 409))).
Proof.
  intros H.
  assert (Ha := store_ok_add now st u p H).
  assert (Hr := store_ok_remove st u p H).
  assert (Hc := store_ok_clear st u H).
  repeat split; auto using unique_pair_count, store_ok_unique.
  intros E.
  apply store_ok_parts in H as (_ & _ & _ & Hf).
  destruct (favorite_refers st u p Hf E) as [Eu Ep].
  destruct (add_to_favorite_cases now st u p)
    as [(X & _)|[(_ & X & _)|[(_ & _ & _ & ->)|(_ & _ & X & _)]]];
    congruence.
Qed.

Lemma favorite_pair_at_most_once_witness :
  store_ok demo_store = true
  /\ (pair_count (fst (add_to_favorite 50 demo_store 1 7)) 1 7 <= 1)%nat
  /\ add_to_favorite 50 demo_store 1 8
     = (demo_store, (Msg false "Product already in favorites", 409)).
Proof.
  destruct (favorite_pair_at_most_once 50 demo_store 1 7 eq_refl)
    as (_ & (_ & Ha) & _).
  destruct (favorite_pair_at_most_once 50 demo_store 1 8 eq_refl)
    as (_ & _ & _ & _ & Hdup).
  split; [reflexivity|]. split; [apply Ha | apply Hdup; reflexivity].
Defined.

(** ** C2 *)

(** C2. Add answers 404 "User not found" when the user is missing (and it
    answers 404 whenever the product is missing), 404 "Product not found",
    a different message, when the user exists and the product is missing,
    and 409 with the store untouched when the pair is already a favourite;
    otherwise it appends exactly one row, for this user and product with
    [added_at = now], leaves the other tables alone, and answers 201 with
    that row. *)
Theorem add_to_favorite_outcomes (now : Z) (st : Store) (u p : Z) :
  (user_exists st u = false ->
   add_to_favorite now st u p = (st, (Msg false "User not found", 404)))
  /\ (product_exists st p = false ->
      fst (add_to_favorite now st u p) = st
      /\ status (snd (add_to_favorite now st u p)) = 404)
  /\ (user_exists st u = true -> product_exists st p = false ->
      add_to_favorite now st u p = (st, (Msg false "Product not found", 404)))
  /\ "User not found" <> "Product not found"
  /\ (user_exists st u = true -> product_exists st p = true ->
      favorite_exists st u p = true ->
      add_to_favorite now st u p
      = (st, (Msg false "Product already in favorites", 409)))
  /\ (user_exists st u = true -> product_exists st p = true ->
      favorite_exists st u p = false ->
      exists fav,
        f_user_id fav = u /\ f_product_id fav = p /\ f_added_at fav = now
        /\ user_favorites (fst (add_to_favorite now st u p))
           = user_favorites st ++ [fav]
        /\ users (fst (add_to_favorite now st u p)) = users st
        /\ products (fst (add_to_favorite now st u p)) = products st
        /\ snd (add_to_favorite now st u p)
           = (FavoriteBody "Product added to favorites"
                (favorite_to_dict (fst (add_to_favorite now st u p)) fav),
              201)).
Proof.
  destruct (add_to_favorite_cases now st u p)
    as [(Eu & ->)|[(Eu & Ep & ->)|[(Eu & Ep & Ef & ->)|(Eu & Ep & Ef & ->)]]];
    repeat split; try congruence; try discriminate.
  intros _ _ _. exists (added_row now st u p). simpl. repeat split.
Qed.

Lemma add_to_favorite_outcomes_witness :
  add_to_favorite 50 demo_store 99 7
  = (demo_store, (Msg false "User not found", 404))
  /\ add_to_favorite 50 demo_store 1 99
     = (demo_store, (Msg false "Product not found", 404))
  /\ add_to_favorite 50 demo_store 1 8
     = (demo_store, (Msg false "Product already in favorites", 409))
  /\ exists fav,
       f_added_at fav = 50
       /\ user_favorites (fst (add_to_favorite 50 demo_store 1 7))
          = user_favorites demo_store ++ [fav].
Proof.
  split; [|split; [|split]].
  - apply (add_to_favorite_outcomes 50 demo_store 99 7). reflexivity.
  - apply (add_to_favorite_outcomes 50 demo_store 1 99); reflexivity.
  - apply (add_to_favorite_outcomes 50 demo_store 1 8); reflexivity.
  - destruct (add_to_favorite_outcomes 50 demo_store 1 7)
      as (_ & _ & _ & _ & _ & H).
    destruct (H eq_refl eq_refl eq_refl) as (fav & _ & _ & Ht & Hl & _).
    exists fav. split; assumption.
Defined.

(** ** C3 *)

Lemma delete_first_absent (u p : Z) (fav : UserFavorite)
  (l : list UserFavorite) :
  distinct_by (fun f g => same_pair (f_user_id f) (f_product_id f) g) l = true ->
  find (same_pair u p) l = Some fav ->
  existsb (same_pair u p) (filter (fun f => negb (f_id f =? f_id fav)) l)
  = false.
Proof.
  induction l as [|x r IH]; simpl; [discriminate|].
  intros H F. apply andb_true_iff in H as [Hx Hr]. apply negb_true_iff in Hx.
  destruct (same_pair u p x) eqn:E.
  - injection F as <-. rewrite Z.eqb_refl. simpl.
    apply same_pair_eq in E as [<- <-].
    now apply (existsb_filter_false (same_pair (f_user_id x) (f_product_id x))).
  - specialize (IH Hr F).
    destruct (negb (f_id x =? f_id fav)); simpl; [rewrite E|]; auto.
Qed.

(** C3. After an Add that answered 201, IsFavorite answers true for the
    pair; after a Remove that answered 200, IsFavorite answers false; and a
    Remove on a pair that is not stored answers 404 and returns the same
    store, hence the same favourite count for the user. *)
Theorem add_remove_then_is_favorite (now : Z) (st : Store) (u p : Z) :
  store_ok st = true ->
  (status (snd (add_to_favorite now st u p)) = 201 ->
   is_favorite (fst (add_to_favorite now st u p)) u p
   = (IsFavoriteBody true, 200))
  /\ (status (snd (remove_from_favorite st u p)) = 200 ->
      is_favorite (fst (remove_from_favorite st u p)) u p
      = (IsFavoriteBody false, 200))
  /\ (favorite_exists st u p = false ->
      remove_from_favorite st u p
      = (st, (Msg false "Product is not in favorites", 404))
      /\ favorite_count (fst (remove_from_favorite st u p)) u
         = favorite_count st u).
Proof.
  intros H. split; [|split].
  - destruct (add_to_favorite_cases now st u p)
      as [(_ & ->)|[(_ & _ & ->)|[(_ & _ & _ & ->)|(_ & _ & Ef & ->)]]];
      simpl; try discriminate.
    intros _. unfold is_favorite, favorite_first. simpl.
    apply favorite_first_exists in Ef. unfold favorite_first in Ef.
    now rewrite (find_snoc_none _ _ _ Ef (same_pair_refl now st u p)).
  - unfold remove_from_favorite.
    destruct (favorite_first st u p) as [fav|] eqn:F; simpl; [|discriminate].
    intros _. unfold is_favorite.
    assert (N : favorite_first (delete_favorite st fav) u p = None).
    { apply favorite_first_exists. unfold favorite_exists. simpl.
      apply delete_first_absent; [|exact F].
      now apply store_ok_unique in H. }
    now rewrite N.
  - intros E. apply favorite_first_exists in E.
    unfold remove_from_favorite. now rewrite E.
Qed.

Lemma add_remove_then_is_favorite_witness :
  store_ok demo_store = true
  /\ is_favorite (fst (add_to_favorite 50 demo_store 1 7)) 1 7
     = (IsFavoriteBody true, 200)
  /\ is_favorite (fst (remove_from_favorite demo_store 1 8)) 1 8
     = (IsFavoriteBody false, 200)
  /\ remove_from_favorite demo_store 2 9
     = (demo_store, (Msg false "Product is not in favorites", 404)).
Proof.
  split; [reflexivity|].
  destruct (add_remove_then_is_favorite 50 demo_store 1 7 eq_refl)
    as (Ha & _ & _).
  destruct (add_remove_then_is_favorite 50 demo_store 1 8 eq_refl)
    as (_ & Hr & _).
  destruct (add_remove_then_is_favorite 50 demo_store 2 9 eq_refl)
    as (_ & _ & Hn).
  split; [apply Ha; reflexivity|].
  split; [apply Hr; reflexivity|].
  apply Hn. reflexivity.
Defined.

(** ** [ORDER BY] sorts, and a page of a sorted list is sorted *)

Section OrderBy.

Context {A : Type} (leb : A -> A -> bool).

Hypothesis leb_total : forall a b, leb a b = true \/ leb b a = true.

Lemma insert_by_perm (x : A) (l : list A) :
  Permutation (insert_by leb x l) (x :: l).
Proof.
  induction l as [|y r IH]; simpl; auto.
  destruct (leb x y); auto.
  rewrite IH. apply perm_swap.
Qed.

Lemma order_by_perm (l : list A) : Permutation (order_by leb l) l.
Proof.
  induction l as [|x r IH]; simpl; auto.
  rewrite insert_by_perm. now constructor.
Qed.

Lemma order_by_length (l : list A) :
  List.length (order_by leb l) = List.length l.
Proof. apply Permutation_length, order_by_perm. Qed.

Lemma order_by_in (x : A) (l : list A) : In x (order_by leb l) <-> In x l.
Proof.
  split; apply Permutation_in;
    [apply order_by_perm | apply Permutation_sym, order_by_perm].
Qed.

Lemma insert_by_hd (x y : A) (l : list A) :
  HdRel (fun a b => leb a b = true) y l -> leb y x = true ->
  HdRel (fun a b => leb a b = true) y (insert_by leb x l).
Proof.
  intros H Hyx. destruct l as [|z r]; simpl; [now constructor|].
  destruct (leb x z); constructor; auto.
  now inversion H.
Qed.

Lemma insert_by_sorted (x : A) (l : list A) :
  Sorted (fun a b => leb a b = true) l ->
  Sorted (fun a b => leb a b = true) (insert_by leb x l).
Proof.
  induction l as [|y r IH]; simpl; intros S.
  - repeat constructor.
  - destruct (leb x y) eqn:E.
    + constructor; auto.
    + inversion S as [|? ? Sr Hr]; subst.
      constructor; auto.
      apply insert_by_hd; auto.
      destruct (leb_total x y); congruence.
Qed.

Lemma order_by_sorted (l : list A) :
  Sorted (fun a b => leb a b = true) (order_by leb l).
Proof.
  induction l as [|x r IH]; simpl; [constructor | now apply insert_by_sorted].
Qed.

End OrderBy.

Section SortedSlices.

Context {A : Type} (R : A -> A -> Prop).

Lemma HdRel_firstn (x : A) (n : nat) (l : list A) :
  HdRel R x l -> HdRel R x (firstn n l).
Proof. intros H. destruct n, l; simpl; auto. inversion H. now constructor. Qed.

Lemma Sorted_firstn (n : nat) (l : list A) :
  Sorted R l -> Sorted R (firstn n l).
Proof.
  revert n. induction l as [|x r IH]; intros n S.
  - now rewrite firstn_nil.
  - destruct n; simpl; [constructor|].
    inversion S; subst. constructor; auto using HdRel_firstn.
Qed.

Lemma Sorted_skipn (n : nat) (l : list A) :
  Sorted R l -> Sorted R (skipn n l).
Proof.
  revert l. induction n as [|n IH]; intros l S; simpl; auto.
  destruct l; auto. inversion S; auto.
Qed.

Lemma Sorted_weaken (R' : A -> A -> Prop) (l : list A) :
  (forall a b, R a b -> R' a b) -> Sorted R l -> Sorted R' l.
Proof.
  intros W. induction 1 as [|x r S IH H]; constructor; auto.
  destruct H; constructor; auto.
Qed.

End SortedSlices.

Lemma Sorted_map (A B : Type) (f : A -> B) (R : B -> B -> Prop) (l : list A) :
  Sorted (fun a b => R (f a) (f b)) l -> Sorted R (map f l).
Proof.
  induction 1 as [|x r S IH H]; simpl; constructor; auto.
  destruct H; simpl; constructor; auto.
Qed.

Lemma price_total (a b : Q) : Qle_bool a b = true \/ Qle_bool b a = true.
Proof.
  rewrite !Qle_bool_iff.
  destruct (Qlt_le_dec a b) as [H|H]; [left; now apply Qlt_le_weak | now right].
Qed.

(** ** The join and the rows of ROUTE 7 *)

Lemma in_firstn (A : Type) (x : A) (n : nat) (l : list A) :
  In x (firstn n l) -> In x l.
Proof. intros H. rewrite <- (firstn_skipn n l). apply in_or_app. now left. Qed.

Lemma in_skipn (A : Type) (x : A) (n : nat) (l : list A) :
  In x (skipn n l) -> In x l.
Proof. intros H. rewrite <- (firstn_skipn n l). apply in_or_app. now right. Qed.

Lemma in_existsb (A : Type) (f : A -> bool) (x : A) (l : list A) :
  In x l -> f x = true -> existsb f l = true.
Proof. intros H E. apply existsb_exists. now exists x. Qed.

(** With a primary key, [Product.query.get] finds the row itself. *)
Lemma Product_get_row (st : Store) (p : Product) :
  products_pk st = true -> In p (products st) ->
  Product_get st (p_id p) = Some p.
Proof.
  unfold products_pk, Product_get.
  induction (products st) as [|x r IH]; simpl; [tauto|].
  intros H [->|I].
  - now rewrite Z.eqb_refl.
  - apply andb_true_iff in H as [Hx Hr]. apply negb_true_iff in Hx.
    destruct (p_id x =? p_id p) eqn:E; [|now apply IH].
    rewrite (in_existsb _ (fun q => p_id x =? p_id q) p r I E) in Hx.
    discriminate.
Qed.

Lemma join_product_in (st : Store) (q : list UserFavorite)
  (f : UserFavorite) (p : Product) :
  In (f, p) (join_product st q) ->
  In f q /\ In p (products st) /\ p_id p = f_product_id f.
Proof.
  unfold join_product. rewrite in_flat_map. intros (g & Ig & I).
  apply in_map_iff in I as (p' & E & I). injection E as -> ->.
  apply filter_In in I as [I E]. apply Z.eqb_eq in E. auto.
Qed.

Lemma join_product_of (st : Store) (q : list UserFavorite)
  (f : UserFavorite) (p : Product) :
  products_pk st = true -> In (f, p) (join_product st q) -> product_of st f p.
Proof.
  intros K I. apply join_product_in in I as (_ & I & E).
  unfold product_of. rewrite <- E. now apply Product_get_row.
Qed.

(** A key that is present selects exactly one row. *)
Lemma products_pk_one (l : list Product) (k : Z) :
  distinct_by (fun p q => p_id p =? p_id q) l = true ->
  existsb (fun p => p_id p =? k) l = true ->
  exists p, filter (fun p => p_id p =? k) l = [p].
Proof.
  induction l as [|x r IH]; simpl; [discriminate|].
  intros H E. apply andb_true_iff in H as [Hx Hr]. apply negb_true_iff in Hx.
  destruct (p_id x =? k) eqn:Ex.
  - exists x. f_equal. apply filter_none. apply Z.eqb_eq in Ex. subst k.
    rewrite <- Hx. apply existsb_same. intros y. apply Z.eqb_sym.
  - simpl in E. now apply IH.
Qed.

(** Under the key and the foreign key the join keeps every favourite
    exactly once. *)
Lemma join_product_fst (st : Store) (q : list UserFavorite) :
  products_pk st = true ->
  (forall f, In f q -> product_exists st (f_product_id f) = true) ->
  map fst (join_product st q) = q.
Proof.
  intros K. unfold join_product.
  induction q as [|f r IH]; simpl; intros F; auto.
  destruct (products_pk_one (products st) (f_product_id f) K) as [p ->].
  - apply F. now left.
  - simpl. f_equal. apply IH. intros g I. apply F. now right.
Qed.

Lemma favorites_fk_product (st : Store) (f : UserFavorite) :
  favorites_fk st = true -> In f (user_favorites st) ->
  product_exists st (f_product_id f) = true.
Proof.
  unfold favorites_fk. rewrite forallb_forall. intros H I.
  specialize (H f I). now apply andb_true_iff in H.
Qed.

Lemma favorites_of_in (st : Store) (u : Z) (f : UserFavorite) :
  In f (favorites_of st u) -> In f (user_favorites st).
Proof. unfold favorites_of. rewrite filter_In. tauto. Qed.

Lemma products_of_Forall2 (st : Store) (items : list UserFavorite)
  (ps : list Product) :
  products_of st items = Some ps -> Forall2 (product_of st) items ps.
Proof.
  revert ps. induction items as [|f r IH]; simpl; intros ps E.
  - injection E as <-. constructor.
  - destruct (Product_get st (f_product_id f)) eqn:G; [|discriminate].
    destruct (products_of st r); [|discriminate].
    injection E as <-. constructor; auto.
Qed.

Lemma products_of_rows (st : Store) (rows : list (UserFavorite * Product)) :
  (forall f p, In (f, p) rows -> product_of st f p) ->
  products_of st (map fst rows) = Some (map snd rows).
Proof.
  induction rows as [|[f p] r IH]; simpl; intros H; auto.
  rewrite (H f p) by now left.
  rewrite IH; [reflexivity|]. intros g q I. apply H. now right.
Qed.

Lemma products_of_total (st : Store) (items : list UserFavorite) :
  (forall f, In f items -> product_exists st (f_product_id f) = true) ->
  exists ps, products_of st items = Some ps.
Proof.
  induction items as [|f r IH]; simpl; intros H; [now exists []|].
  destruct (Product_get st (f_product_id f)) eqn:G.
  - destruct IH as [ps ->]; [intros g I; apply H; now right|]. eauto.
  - apply Product_get_exists in G. rewrite H in G by now left. discriminate.
Qed.

Lemma clamp_page_range (x : Z) : 1 <= clamp_page x.
Proof. unfold clamp_page. destruct (Z.ltb_spec x 1); lia. Qed.

Lemma clamp_per_page_range (x : Z) : 1 <= clamp_per_page x <= 100.
Proof.
  unfold clamp_per_page.
  destruct (Z.ltb_spec x 1); simpl.
  - lia.
  - destruct (Z.gtb_spec x 100); lia.
Qed.

(** After the handler's validation the clamps of [paginate] do nothing,
    and the statement is accepted when the offset fits. *)
Lemma paginate_valid (A : Type) (rows : list A) (page per_page : Z) :
  1 <= page -> 1 <= per_page -> (page - 1) * per_page <= max_bigint ->
  paginate rows page per_page
  = Some {| pg_page := page;
            pg_per_page := per_page;
            pg_items := firstn (Z.to_nat per_page)
                          (skipn (Z.to_nat ((page - 1) * per_page)) rows);
            pg_total := Z.of_nat (List.length rows) |}.
Proof.
  intros Hp Hq Ho. unfold paginate.
  destruct (Z.ltb_spec page 1); [lia|].
  destruct (Z.ltb_spec per_page 1); [lia|].
  destruct (Z.gtb_spec ((page - 1) * per_page) max_bigint); [lia|].
  reflexivity.
Qed.

Lemma paginate_refused (A : Type) (rows : list A) (page per_page : Z) :
  1 <= page -> 1 <= per_page -> max_bigint < (page - 1) * per_page ->
  paginate rows page per_page = None.
Proof.
  intros Hp Hq Ho. unfold paginate.
  destruct (Z.ltb_spec page 1); [lia|].
  destruct (Z.ltb_spec per_page 1); [lia|].
  destruct (Z.gtb_spec ((page - 1) * per_page) max_bigint); [|lia].
  reflexivity.
Qed.

Lemma offset_fits_le (P : Python) (args : dict) :
  offset_fits args = true
  <-> (clamp_page (args_get_int args "page" 1) - 1)
      * clamp_per_page (args_get_int args "per_page" 12) <= max_bigint.
Proof. unfold offset_fits. apply Z.leb_le. Qed.

Lemma offset_fits_gt (P : Python) (args : dict) :
  offset_fits args = false
  <-> max_bigint
      < (clamp_page (args_get_int args "page" 1) - 1)
        * clamp_per_page (args_get_int args "per_page" 12).
Proof. unfold offset_fits. apply Z.leb_gt. Qed.


Lemma favorites_page_eq (C : Collation) (P : Python) (st : Store) (u : Z)
  (args : dict) :
  offset_fits args = true ->
  favorites_page st u args
  = let page := clamp_page (args_get_int args "page" 1) in
    let per_page := clamp_per_page (args_get_int args "per_page" 12) in
    let rows := sorted_query st u (args_get args "sort_by" "name") in
    Some {| pg_page := page;
            pg_per_page := per_page;
            pg_items := firstn (Z.to_nat per_page)
                          (skipn (Z.to_nat ((page - 1) * per_page)) rows);
            pg_total := Z.of_nat (List.length rows) |}.
Proof.
  intros F. unfold favorites_page. apply paginate_valid.
  - apply clamp_page_range.
  - apply clamp_per_page_range.
  - now apply offset_fits_le.
Qed.

Lemma favorites_page_refused (C : Collation) (P : Python) (st : Store)
  (u : Z) (args : dict) :
  offset_fits args = false -> favorites_page st u args = None.
Proof.
  intros F. unfold favorites_page. apply paginate_refused.
  - apply clamp_page_range.
  - apply clamp_per_page_range.
  - now apply offset_fits_gt.
Qed.

(** The query of ROUTE 7 for each value of [sort_by]. *)
Lemma sorted_query_cases (C : Collation) (st : Store) (u : Z) (s : string) :
  (s = "price_asc"
   /\ sorted_query st u s
      = map fst (order_by price_asc (join_product st (favorites_of st u))))
  \/ (s = "price_desc"
      /\ sorted_query st u s
         = map fst (order_by price_desc (join_product st (favorites_of st u))))
  \/ (s = "newest"
      /\ sorted_query st u s = order_by newest (favorites_of st u))
  \/ (s <> "price_asc" /\ s <> "price_desc" /\ s <> "newest"
      /\ sorted_query st u s
         = map fst (order_by name_asc (join_product st (favorites_of st u)))).
Proof.
  unfold sorted_query.
  destruct (String.eqb_spec s "price_asc") as [->|N1]; [now left|].
  destruct (String.eqb_spec s "price_desc") as [->|N2]; [now right; left|].
  destruct (String.eqb_spec s "newest") as [->|N3]; [now right; right; left|].
  right; right; right. auto.
Qed.

Lemma joined_sorted_in (st : Store) (q : list UserFavorite)
  (leb : UserFavorite * Product -> UserFavorite * Product -> bool)
  (f : UserFavorite) :
  In f (map fst (order_by leb (join_product st q))) -> In f q.
Proof.
  intros I. apply in_map_iff in I as ([g p] & <- & I).
  apply order_by_in in I. now apply join_product_in in I.
Qed.

Lemma sorted_query_in (C : Collation) (st : Store) (u : Z) (s : string)
  (f : UserFavorite) :
  In f (sorted_query st u s) -> In f (favorites_of st u).
Proof.
  destruct (sorted_query_cases C st u s)
    as [(_ & ->)|[(_ & ->)|[(_ & ->)|(_ & _ & _ & ->)]]];
    try apply joined_sorted_in.
  apply order_by_in.
Qed.

Lemma joined_sorted_length (st : Store) (u : Z)
  (leb : UserFavorite * Product -> UserFavorite * Product -> bool) :
  store_ok st = true ->
  List.length (map fst (order_by leb (join_product st (favorites_of st u))))
  = favorite_count st u.
Proof.
  intros H. apply store_ok_parts in H as (_ & K & _ & F).
  rewrite length_map, order_by_length, <- (length_map fst).
  rewrite join_product_fst; auto.
  intros f I. apply favorites_fk_product; auto.
  now apply favorites_of_in in I.
Qed.

Lemma sorted_query_length (C : Collation) (st : Store) (u : Z) (s : string) :
  store_ok st = true ->
  List.length (sorted_query st u s) = favorite_count st u.
Proof.
  intros H.
  destruct (sorted_query_cases C st u s)
    as [(_ & ->)|[(_ & ->)|[(_ & ->)|(_ & _ & _ & ->)]]];
    auto using joined_sorted_length.
  apply order_by_length.
Qed.

(** The rows of the page a request asks for. *)
Lemma page_rows (C : Collation) (P : Python) (st : Store) (u : Z)
  (args : dict) :
  offset_fits args = true ->
  exists pg,
    favorites_page st u args = Some pg
    /\ pg_page pg = clamp_page (args_get_int args "page" 1)
    /\ pg_per_page pg = clamp_per_page (args_get_int args "per_page" 12)
    /\ pg_total pg
       = Z.of_nat (List.length
                     (sorted_query st u (args_get args "sort_by" "name")))
    /\ pg_items pg
       = firstn (Z.to_nat (clamp_per_page (args_get_int args "per_page" 12)))
           (skipn (Z.to_nat
                     ((clamp_page (args_get_int args "page" 1) - 1)
                      * clamp_per_page (args_get_int args "per_page" 12)))
              (sorted_query st u (args_get args "sort_by" "name"))).
Proof.
  intros F. rewrite (favorites_page_eq C P st u args F).
  eexists. split; [reflexivity|]. repeat split.
Qed.

(** ROUTE 7 answers 200 on a store that satisfies the constraints when
    the offset fits: the count is the number of favourites of the user, the
    page and page size are the validated ones, and the products listed are
    those of the rows of the page, in the order of the rows. *)
Lemma get_my_favorites_ok (C : Collation) (P : Python) (st : Store) (u : Z)
  (args : dict) :
  store_ok st = true -> offset_fits args = true ->
  exists pg favs,
    favorites_page st u args = Some pg
    /\ get_my_favorites st u args
       = (FavoritesBody (Z.of_nat (favorite_count st u))
            (clamp_page (args_get_int args "page" 1))
            (clamp_per_page (args_get_int args "per_page" 12))
            (pages pg) favs, 200)
    /\ Forall2 (product_of st) (pg_items pg) favs.
Proof.
  intros H F.
  destruct (page_rows C P st u args F) as (pg & E & _ & _ & _ & I).
  destruct (products_of_total st (pg_items pg)) as [ps X].
  { intros f If. rewrite I in If.
    apply in_firstn, in_skipn, sorted_query_in, favorites_of_in in If.
    apply store_ok_parts in H as (_ & _ & _ & K).
    now apply favorites_fk_product. }
  exists pg, ps. split; [exact E|]. split; [|now apply products_of_Forall2].
  unfold get_my_favorites. unfold favorites_page in E. cbv zeta.
  rewrite E, X. now rewrite sorted_query_length.
Qed.

(** Beyond the [bigint] the database refuses the statement and ROUTE 7
    answers 500, whatever the store holds. *)
Lemma get_my_favorites_overflow (C : Collation) (P : Python) (st : Store)
  (u : Z) (args : dict) :
  offset_fits args = false ->
  get_my_favorites st u args = (Raised "Error: ", 500).
Proof.
  intros F. assert (E := favorites_page_refused C P st u args F).
  unfold get_my_favorites. unfold favorites_page in E. cbv zeta.
  now rewrite E.
Qed.

(** ** C4 *)



(** ** C10 *)







(** ** C5 *)

Lemma product_of_rows (st : Store) (rows : list (UserFavorite * Product))
  (favs : list Product) :
  (forall f p, In (f, p) rows -> product_of st f p) ->
  Forall2 (product_of st) (map fst rows) favs -> favs = map snd rows.
Proof.
  revert favs. induction rows as [|[f p] r IH]; simpl; intros favs H F.
  - now inversion F.
  - inversion F as [|? q ? ps Hq Hr]; subst. f_equal.
    + assert (Hp := H f p (or_introl eq_refl)).
      unfold product_of in *. congruence.
    + apply IH; auto.
Qed.

(** A page cut from the joined rows sorted by [leb] lists its products in
    the order [leb] induces on products. *)
Lemma joined_page_sorted (st : Store) (q : list UserFavorite)
  (leb : UserFavorite * Product -> UserFavorite * Product -> bool)
  (R : Product -> Product -> Prop) (n m : nat) (favs : list Product) :
  products_pk st = true ->
  (forall a b, leb a b = true \/ leb b a = true) ->
  (forall a b, leb a b = true -> R (snd a) (snd b)) ->
  Forall2 (product_of st)
    (firstn n (skipn m (map fst (order_by leb (join_product st q))))) favs ->
  Sorted R favs.
Proof.
  intros K T W F.
  rewrite skipn_map, firstn_map in F.
  apply product_of_rows in F.
  - subst favs. apply Sorted_map.
    apply Sorted_firstn, Sorted_skipn.
    apply (Sorted_weaken (fun a b => leb a b = true)); auto.
    now apply order_by_sorted.
  - intros f p I. apply in_firstn, in_skipn, order_by_in in I.
    now apply (join_product_of st q).
Qed.

Lemma price_asc_total (a b : UserFavorite * Product) :
  price_asc a b = true \/ price_asc b a = true.
Proof. apply price_total. Qed.

Lemma price_desc_total (a b : UserFavorite * Product) :
  price_desc a b = true \/ price_desc b a = true.
Proof. apply price_total. Qed.

Lemma newest_total (a b : UserFavorite) :
  newest a b = true \/ newest b a = true.
Proof. unfold newest. rewrite !Z.leb_le. lia. Qed.

Lemma name_asc_total (C : Collation) (a b : UserFavorite * Product) :
  name_asc a b = true \/ name_asc b a = true.
Proof. apply coll_total. Qed.

(** The joined rows sorted by [leb], read as favourites ordered through
    their products. *)
Lemma joined_sorted_by (st : Store) (q : list UserFavorite)
  (leb : UserFavorite * Product -> UserFavorite * Product -> bool)
  (R : Product -> Product -> Prop) :
  products_pk st = true ->
  (forall a b, leb a b = true \/ leb b a = true) ->
  (forall a b, leb a b = true -> R (snd a) (snd b)) ->
  Sorted (fun a b => exists pa pb,
                       Product_get st (f_product_id a) = Some pa
                       /\ Product_get st (f_product_id b) = Some pb
                       /\ R pa pb)
         (map fst (order_by leb (join_product st q))).
Proof.
  intros K T W.
  assert (I : forall r, In r (order_by leb (join_product st q)) ->
                        product_of st (fst r) (snd r)).
  { intros [f p] Ir. apply order_by_in in Ir.
    now apply (join_product_of st q). }
  assert (S := order_by_sorted leb T (join_product st q)).
  induction S as [|x r S IH Hd]; simpl; constructor.
  - apply IH. intros y Iy. apply I. now right.
  - destruct Hd as [|y r' L]; simpl; constructor.
    exists (snd x), (snd y). repeat split.
    + apply (I x). now left.
    + apply (I y). right. now left.
    + now apply W.
Qed.

Lemma sorted_query_perm (C : Collation) (st : Store) (u : Z) (s : string) :
  store_ok st = true ->
  Permutation (sorted_query st u s) (favorites_of st u).
Proof.
  intros H.
  assert (J : forall leb,
             Permutation
               (map fst (order_by leb (join_product st (favorites_of st u))))
               (favorites_of st u)).
  { intros leb. apply store_ok_parts in H as (_ & K & _ & F).
    rewrite <- (join_product_fst st (favorites_of st u) K) at 2.
    - apply Permutation_map, order_by_perm.
    - intros f I. apply favorites_fk_product; auto.
      now apply favorites_of_in in I. }
  destruct (sorted_query_cases C st u s)
    as [(_ & ->)|[(_ & ->)|[(_ & ->)|(_ & _ & _ & ->)]]]; auto.
  apply order_by_perm.
Qed.

(** The whole query of ROUTE 7 is in the order its [sort_by] asks for. *)
Lemma sorted_query_sorted (C : Collation) (st : Store) (u : Z) (s : string) :
  store_ok st = true ->
  (s = "price_asc" -> Sorted (by_price st) (sorted_query st u s))
  /\ (s = "price_desc" ->
      Sorted (fun a b => by_price st b a) (sorted_query st u s))
  /\ (s = "newest" -> Sorted added_ge (sorted_query st u s))
  /\ (s <> "price_asc" -> s <> "price_desc" -> s <> "newest" ->
      Sorted (by_name st) (sorted_query st u s)).
Proof.
  intros H.
  assert (K : products_pk st = true) by (apply store_ok_parts in H; tauto).
  destruct (sorted_query_cases C st u s)
    as [(E & ->)|[(E & ->)|[(E & ->)|(N1 & N2 & N3 & ->)]]];
    repeat split; intros; try congruence.
  - apply (joined_sorted_by st _ price_asc
             (fun pa pb => (p_price pa <= p_price pb)%Q) K price_asc_total).
    intros a b L. now apply Qle_bool_iff.
  - assert (S := joined_sorted_by st (favorites_of st u) price_desc
                   (fun pa pb => (p_price pb <= p_price pa)%Q) K
                   price_desc_total
                   (fun a b L => proj1 (Qle_bool_iff _ _) L)).
    revert S. apply Sorted_weaken.
    intros a b (pa & pb & Ga & Gb & L). exists pb, pa. auto.
  - apply (Sorted_weaken (fun a b => newest a b = true)).
    + intros a b L. now apply Z.leb_le.
    + apply order_by_sorted, newest_total.
  - apply (joined_sorted_by st _ name_asc
             (fun pa pb => coll_leb (p_name pa) (p_name pb) = true) K
             (name_asc_total C)).
    intros a b L. exact L.
Qed.

(** C5. On a store that satisfies the constraints the query List
    paginates holds every favourite of the user exactly once and is, as a
    whole, in non-decreasing order of the products' prices for
    [sort_by=price_asc], in non-increasing price order for [price_desc], in
    non-increasing [added_at] order for [newest], and in ascending order of
    the products' names, by the collation, for every other value.  A
    request whose offset fits is answered 200 with the user's favourite
    count and the products of the rows its page cuts from that query, one
    product per row and in the order of the rows: so the products listed are
    in that same order, for an absent [sort_by] the name order. *)
Theorem list_sort_orders (C : Collation) (P : Python) (st : Store) (u : Z)
  (args : dict) :
  store_ok st = true ->
  Permutation (sorted_query st u (args_get args "sort_by" "name"))
              (favorites_of st u)
  /\ (args_get args "sort_by" "name" = "price_asc" ->
      Sorted (by_price st) (sorted_query st u (args_get args "sort_by" "name")))
  /\ (args_get args "sort_by" "name" = "price_desc" ->
      Sorted (fun a b => by_price st b a)
             (sorted_query st u (args_get args "sort_by" "name")))
  /\ (args_get args "sort_by" "name" = "newest" ->
      Sorted added_ge (sorted_query st u (args_get args "sort_by" "name")))
  /\ (args_get args "sort_by" "name" <> "price_asc" ->
      args_get args "sort_by" "name" <> "price_desc" ->
      args_get args "sort_by" "name" <> "newest" ->
      Sorted (by_name st) (sorted_query st u (args_get args "sort_by" "name")))
  /\ (offset_fits args = true ->
      exists total_pages favs,
        get_my_favorites st u args
        = (FavoritesBody (Z.of_nat (favorite_count st u))
             (clamp_page (args_get_int args "page" 1))
             (clamp_per_page (args_get_int args "per_page" 12))
             total_pages favs, 200)
        /\ Forall2 (product_of st)
             (firstn
                (Z.to_nat (clamp_per_page (args_get_int args "per_page" 12)))
                (skipn
                   (Z.to_nat
                      ((clamp_page (args_get_int args "page" 1) - 1)
                       * clamp_per_page (args_get_int args "per_page" 12)))
                   (sorted_query st u (args_get args "sort_by" "name"))))
             favs
        /\ (args_get args "sort_by" "name" = "price_asc" ->
            Sorted price_le favs)
        /\ (args_get args "sort_by" "name" = "price_desc" ->
            Sorted price_ge favs)
        /\ (args_get args "sort_by" "name" = "newest" ->
            Sorted added_ge
              (firstn
                 (Z.to_nat (clamp_per_page (args_get_int args "per_page" 12)))
                 (skipn
                    (Z.to_nat
                       ((clamp_page (args_get_int args "page" 1) - 1)
                        * clamp_per_page (args_get_int args "per_page" 12)))
                    (sorted_query st u (args_get args "sort_by" "name")))))
        /\ (args_get args "sort_by" "name" <> "price_asc" ->
            args_get args "sort_by" "name" <> "price_desc" ->
            args_get args "sort_by" "name" <> "newest" ->
            Sorted name_le favs)
        /\ (dict_get args "sort_by" = None -> Sorted name_le favs)).
Proof.
  intros H.
  split; [now apply sorted_query_perm|].
  destruct (sorted_query_sorted C st u (args_get args "sort_by" "name") H)
    as (S1 & S2 & S3 & S4).
  do 4 (split; [assumption|]).
  intros F.
  destruct (get_my_favorites_ok C P st u args H F) as (pg & favs & E & R & X).
  destruct (page_rows C P st u args F) as (pg' & E' & _ & _ & _ & I).
  assert (pg' = pg) by congruence. subst pg'. rewrite I in X.
  exists (pages pg), favs. split; [exact R|]. split; [exact X|].
  assert (K : products_pk st = true) by (apply store_ok_parts in H; tauto).
  assert (Hname :
            args_get args "sort_by" "name" <> "price_asc" ->
            args_get args "sort_by" "name" <> "price_desc" ->
            args_get args "sort_by" "name" <> "newest" ->
            Sorted name_le favs).
  { intros N1 N2 N3.
    destruct (sorted_query_cases C st u (args_get args "sort_by" "name"))
      as [(Y & _)|[(Y & _)|[(Y & _)|(_ & _ & _ & Q)]]]; try congruence.
    rewrite Q in X.
    eapply (joined_page_sorted st (favorites_of st u) name_asc name_le);
      [exact K | exact (name_asc_total C) | | exact X].
    intros a b L. exact L. }
  split; [|split; [|split; [|split]]].
  - intros S. rewrite S in X.
    eapply (joined_page_sorted st (favorites_of st u) price_asc price_le);
      [exact K | exact price_asc_total | | exact X].
    intros a b L. now apply Qle_bool_iff.
  - intros S. rewrite S in X.
    eapply (joined_page_sorted st (favorites_of st u) price_desc price_ge);
      [exact K | exact price_desc_total | | exact X].
    intros a b L. now apply Qle_bool_iff.
  - intros S. now apply Sorted_firstn, Sorted_skipn, S3.
  - exact Hname.
  - intros D. unfold args_get in Hname. rewrite D in Hname.
    apply Hname; discriminate.
Qed.

Lemma list_sort_orders_witness :
  store_ok demo_store = true
  /\ Permutation (@sorted_query byte_collation demo_store 1 "price_asc")
                 (favorites_of demo_store 1)
  /\ exists total_pages favs,
       @get_my_favorites byte_collation ascii_python demo_store 1
         [("sort_by", "price_asc")]
       = (FavoritesBody 2 1 12 total_pages favs, 200)
       /\ Sorted price_le favs.
Proof.
  split; [reflexivity|].
  destruct (list_sort_orders byte_collation ascii_python demo_store 1
              [("sort_by", "price_asc")] eq_refl)
    as (Hp & _ & _ & _ & _ & H).
  split; [exact Hp|].
  destruct (H eq_refl) as (tp & favs & E & _ & S & _).
  exists tp, favs. split; [exact E|]. apply S. reflexivity.
Defined.

(** ** C6 *)

Lemma pages_ceiling (A : Type) (pg : Pagination A) :
  1 <= pg_per_page pg -> 0 <= pg_total pg ->
  (pg_total pg = 0 -> pages pg = 0)
  /\ (0 < pg_total pg ->
      (pages pg - 1) * pg_per_page pg < pg_total pg <= pages pg * pg_per_page pg).
Proof.
  intros Hp Ht. unfold pages.
  destruct (Z.eqb_spec (pg_total pg) 0) as [E|E]; split; intros; try lia.
  set (n := pg_total pg) in *. set (k := pg_per_page pg) in *.
  assert (D := Z.div_mod (n + k - 1) k).
  assert (M := Z.mod_pos_bound (n + k - 1) k).
  nia.
Qed.

Lemma page_length (A : Type) (rows : list A) (page per_page : Z) :
  1 <= page -> 1 <= per_page ->
  Z.of_nat (List.length
              (firstn (Z.to_nat per_page)
                 (skipn (Z.to_nat ((page - 1) * per_page)) rows)))
  = Z.max 0 (Z.min per_page
               (Z.of_nat (List.length rows) - (page - 1) * per_page)).
Proof.
  intros Hp Hq. rewrite length_firstn, length_skipn.
  assert (0 <= (page - 1) * per_page) by nia.
  lia.
Qed.

(** C6. On a store that satisfies the constraints List answers a
    request whose offset fits the database's [bigint] with a 200 whose count
    is the number N of favourites of the user whatever the page;
    [total_pages] is 0 for N = 0 and otherwise the least number of pages of
    the served size that hold N rows; the page lists the rows left after the
    offset, at most one page size of them, and none when the offset is at or
    past N; so with N = 25 and a page size of 12 there are 3 pages, page 1
    lists 12 products, page 3 lists 1 and page 4 lists none.  A page so far
    past the end that its offset does not fit is not answered with an empty
    page: the database refuses the statement and the answer is a 500. *)
Theorem list_pagination (C : Collation) (P : Python) (st : Store) (u : Z)
  (args : dict) :
  store_ok st = true ->
  (offset_fits args = true ->
   exists total_pages favs,
     get_my_favorites st u args
     = (FavoritesBody (Z.of_nat (favorite_count st u))
          (clamp_page (args_get_int args "page" 1))
          (clamp_per_page (args_get_int args "per_page" 12))
          total_pages favs, 200)
     /\ (favorite_count st u = 0%nat -> total_pages = 0)
     /\ ((0 < favorite_count st u)%nat ->
         (total_pages - 1) * clamp_per_page (args_get_int args "per_page" 12)
         < Z.of_nat (favorite_count st u)
         <= total_pages * clamp_per_page (args_get_int args "per_page" 12))
     /\ Z.of_nat (List.length favs)
        = Z.max 0
            (Z.min (clamp_per_page (args_get_int args "per_page" 12))
               (Z.of_nat (favorite_count st u)
                - (clamp_page (args_get_int args "page" 1) - 1)
                  * clamp_per_page (args_get_int args "per_page" 12)))
     /\ (Z.of_nat (favorite_count st u)
         <= (clamp_page (args_get_int args "page" 1) - 1)
            * clamp_per_page (args_get_int args "per_page" 12) ->
         favs = [])
     /\ (favorite_count st u = 25%nat ->
         clamp_per_page (args_get_int args "per_page" 12) = 12 ->
         total_pages = 3
         /\ (clamp_page (args_get_int args "page" 1) = 1 ->
             List.length favs = 12%nat)
         /\ (clamp_page (args_get_int args "page" 1) = 3 ->
             List.length favs = 1%nat)
         /\ (clamp_page (args_get_int args "page" 1) = 4 ->
             List.length favs = 0%nat)))
  /\ (offset_fits args = false ->
      get_my_favorites st u args = (Raised "Error: ", 500)).
Proof.
  intros H. split; [|apply get_my_favorites_overflow].
  intros F.
  destruct (get_my_favorites_ok C P st u args H F) as (pg & favs & E & R & X).
  destruct (page_rows C P st u args F) as (pg' & E' & _ & Eq & Et & I).
  assert (pg' = pg) by congruence. subst pg'.
  exists (pages pg), favs.
  split; [exact R|].
  apply Forall2_length in X. rewrite I in X.
  assert (L := sorted_query_length C st u (args_get args "sort_by" "name") H).
  rewrite L in Et.
  assert (Rp := clamp_page_range (args_get_int args "page" 1)).
  assert (Rq := clamp_per_page_range (args_get_int args "per_page" 12)).
  destruct (pages_ceiling _ pg) as [P0 P1]; [lia | lia |].
  rewrite Et in P0. rewrite Eq, Et in P1.
  assert (Len := page_length _
                   (sorted_query st u (args_get args "sort_by" "name"))
                   (clamp_page (args_get_int args "page" 1))
                   (clamp_per_page (args_get_int args "per_page" 12))
                   Rp (proj1 Rq)).
  rewrite X, L in Len.
  set (tp := pages pg) in *.
  set (page := clamp_page (args_get_int args "page" 1)) in *.
  set (pp := clamp_per_page (args_get_int args "per_page" 12)) in *.
  set (n := favorite_count st u) in *.
  assert (Hnil : Z.of_nat n <= (page - 1) * pp -> favs = []).
  { intros Hn. destruct favs; auto. simpl in Len. lia. }
  split. { intros Hn. apply P0. lia. }
  split. { intros Hn. apply P1. lia. }
  split. { exact Len. }
  split. { exact Hnil. }
  intros Hn Hq.
  assert (Q := P1 ltac:(lia)). rewrite Hq in Q, Len.
  split. { lia. }
  split; [|split]; intros Hg; rewrite Hg in Len; lia.
Qed.

Lemma list_pagination_witness :
  store_ok (bulk_store 25) = true
  /\ (exists favs,
        @get_my_favorites byte_collation ascii_python (bulk_store 25) 1
          [("page", "3"); ("per_page", "12")]
        = (FavoritesBody 25 3 12 3 favs, 200)
        /\ List.length favs = 1%nat)
  /\ @get_my_favorites byte_collation ascii_python (bulk_store 25) 1
       [("page", "1000000000000000000"); ("per_page", "12")]
     = (Raised "Error: ", 500).
Proof.
  assert (Hok : store_ok (bulk_store 25) = true) by (vm_compute; reflexivity).
  split; [exact Hok|]. split.
  - destruct (list_pagination byte_collation ascii_python (bulk_store 25) 1
                [("page", "3"); ("per_page", "12")] Hok) as (Hin & _).
    destruct Hin as (tp & favs & E & _ & _ & _ & _ & X);
      [vm_compute; reflexivity|].
    destruct X as (T & _ & P3 & _);
      [vm_compute; reflexivity | vm_compute; reflexivity |].
    exists favs. split.
    + rewrite E, T. vm_compute. reflexivity.
    + apply P3. vm_compute. reflexivity.
  - destruct (list_pagination byte_collation ascii_python (bulk_store 25) 1
                [("page", "1000000000000000000"); ("per_page", "12")] Hok)
      as (_ & Hout).
    apply Hout. vm_compute. reflexivity.
Defined.

(** ** C7 *)

Lemma filter_out_then_in (A : Type) (f : A -> bool) (l : list A) :
  filter f (filter (fun x => negb (f x)) l) = [].
Proof.
  induction l as [|x r IH]; simpl; auto.
  destruct (f x) eqn:E; simpl; [|rewrite E]; auto.
Qed.

Lemma sorted_query_none (C : Collation) (st : Store) (u : Z) (s : string) :
  favorites_of st u = [] -> sorted_query st u s = [].
Proof.
  intros E.
  destruct (sorted_query_cases C st u s)
    as [(_ & ->)|[(_ & ->)|[(_ & ->)|(_ & _ & _ & ->)]]];
    now rewrite E.
Qed.

(** List for a user without favourites. *)
Lemma get_my_favorites_none (C : Collation) (P : Python) (st : Store) (u : Z)
  (args : dict) :
  favorites_of st u = [] -> offset_fits args = true ->
  get_my_favorites st u args
  = (FavoritesBody 0 (clamp_page (args_get_int args "page" 1))
       (clamp_per_page (args_get_int args "per_page" 12)) 0 [], 200).
Proof.
  intros E F. unfold get_my_favorites.
  rewrite (sorted_query_none C st u _ E).
  rewrite paginate_valid
    by (apply clamp_page_range || apply clamp_per_page_range
        || now apply offset_fits_le).
  cbv zeta. simpl pg_items. rewrite skipn_nil, firstn_nil. reflexivity.
Qed.

(** C7. ClearAll answers 200 with a deleted count equal to the number of
    favourites the user had, and that is the number of rows that left the
    table; the rows kept are exactly those of other users; with no
    favourite the answer is a 200 with count 0; and List for the user on
    the store ClearAll returns is a 200 with total 0, no page and no
    product, for the plain request and for every request whose offset fits
    the database's [bigint]. *)
Theorem clear_all_favorites_empties (C : Collation) (P : Python)
  (st : Store) (u : Z) (args : dict) :
  snd (clear_all_favorites st u)
  = (ClearedBody
       ("Deleted " ++ str_of_int (Z.of_nat (favorite_count st u))
        ++ " products from favorites")%string
       (Z.of_nat (favorite_count st u)), 200)
  /\ (forall f, In f (user_favorites (fst (clear_all_favorites st u)))
                <-> In f (user_favorites st) /\ f_user_id f <> u)
  /\ List.length (user_favorites st)
     = (List.length (user_favorites (fst (clear_all_favorites st u)))
        + favorite_count st u)%nat
  /\ favorite_count (fst (clear_all_favorites st u)) u = 0%nat
  /\ (favorite_count st u = 0%nat ->
      snd (clear_all_favorites st u)
      = (ClearedBody "Deleted 0 products from favorites" 0, 200))
  /\ get_my_favorites (fst (clear_all_favorites st u)) u []
     = (FavoritesBody 0 1 12 0 [], 200)
  /\ (offset_fits args = true ->
      get_my_favorites (fst (clear_all_favorites st u)) u args
      = (FavoritesBody 0 (clamp_page (args_get_int args "page" 1))
           (clamp_per_page (args_get_int args "per_page" 12)) 0 [], 200)).
Proof.
  assert (N : favorites_of (fst (clear_all_favorites st u)) u = []).
  { unfold favorites_of. simpl.
    apply (filter_out_then_in _ (fun f => f_user_id f =? u)). }
  split; [reflexivity|].
  split.
  { intros f. simpl. rewrite filter_In, negb_true_iff, Z.eqb_neq. tauto. }
  split.
  { unfold favorite_count, favorites_of. simpl.
    rewrite <- (filter_length (fun f => f_user_id f =? u) (user_favorites st)).
    lia. }
  split.
  { unfold favorite_count. now rewrite N. }
  split.
  { intros Z0. unfold clear_all_favorites. cbv zeta.
    fold (favorite_count st u). rewrite Z0. reflexivity. }
  split.
  { now apply (get_my_favorites_none C P _ u []). }
  now apply get_my_favorites_none.
Qed.

(** ** C8 *)

Lemma existsb_false_in (A : Type) (f : A -> bool) (x : A) (l : list A) :
  existsb f l = false -> In x l -> f x = false.
Proof.
  intros E I. destruct (f x) eqn:F; auto.
  now rewrite (in_existsb _ f x l I F) in E.
Qed.

Section LoginOutcomes.

Variable check_password_hash : string -> string -> option bool.
Variable create_access_token : string -> string.

(** Login with both fields present and an email no user has. *)
Lemma login_unknown_email (st : Store) (data : dict)
  (email password : string) :
  dict_get data "email" = Some email ->
  dict_get data "password" = Some password ->
  String.eqb email "" = false -> String.eqb password "" = false ->
  email_exists st email = false ->
  AuthRoutes.login check_password_hash create_access_token st data
  = (Msg false "Неправильный email или пароль", 401).
Proof.
  intros De Dp Ne Np M. unfold AuthRoutes.login.
  rewrite De, Dp, Ne, Np. simpl.
  apply find_none_existsb in M. fold (User_by_email st email) in M.
  now rewrite M.
Qed.

(** Login with both fields present and the user the email finds: the
    answer follows the password check. *)
Lemma login_known_email (st : Store) (data : dict) (email password : string)
  (u : User) :
  dict_get data "email" = Some email ->
  dict_get data "password" = Some password ->
  String.eqb email "" = false -> String.eqb password "" = false ->
  User_by_email st email = Some u ->
  AuthRoutes.login check_password_hash create_access_token st data
  = match check_password_hash (u_password_hash u) password with
    | Some true =>
      (LoginBody "Вход успешен"
         (create_access_token (str_of_int (u_id u))) u, 200)
    | Some false => (Msg false "Неправильный email или пароль", 401)
    | None => (Raised "Ошибка при входе: ", 500)
    end.
Proof.
  intros De Dp Ne Np F. unfold AuthRoutes.login.
  rewrite De, Dp, Ne, Np. simpl. rewrite F.
  unfold AuthRoutes.check_password.
  destruct (check_password_hash (u_password_hash u) password) as [[|]|];
    reflexivity.
Qed.

End LoginOutcomes.

(** C8. A login with an email no user has is answered 401 with the
    generic message.  A login with the email of a user is answered with that
    same response when the password check answers false; but when the check
    raises, as on a password it cannot encode, the answer is a 500, which
    differs from the 401 the same password gets with an unknown email: the
    two failures are then told apart. *)
Theorem login_failures_compared
  (check_password_hash : string -> string -> option bool)
  (create_access_token : string -> string)
  (st1 st2 : Store) (data1 data2 : dict)
  (email1 password1 email2 password2 : string) (u : User) :
  dict_get data1 "email" = Some email1 ->
  dict_get data1 "password" = Some password1 ->
  String.eqb email1 "" = false -> String.eqb password1 "" = false ->
  dict_get data2 "email" = Some email2 ->
  dict_get data2 "password" = Some password2 ->
  String.eqb email2 "" = false -> String.eqb password2 "" = false ->
  email_exists st1 email1 = false ->
  User_by_email st2 email2 = Some u ->
  AuthRoutes.login check_password_hash create_access_token st1 data1
  = (Msg false "Неправильный email или пароль", 401)
  /\ (check_password_hash (u_password_hash u) password2 = Some false ->
      AuthRoutes.login check_password_hash create_access_token st2 data2
      = AuthRoutes.login check_password_hash create_access_token st1 data1)
  /\ (check_password_hash (u_password_hash u) password2 = None ->
      AuthRoutes.login check_password_hash create_access_token st2 data2
      = (Raised "Ошибка при входе: ", 500)
      /\ AuthRoutes.login check_password_hash create_access_token st2 data2
         <> AuthRoutes.login check_password_hash create_access_token
              st1 data1).
Proof.
  intros D1 P1 N1 M1 D2 P2 N2 M2 A1 F2.
  rewrite (login_unknown_email _ _ st1 data1 email1 password1) by auto.
  rewrite (login_known_email _ _ st2 data2 email2 password2 u) by auto.
  split; [reflexivity|]. split; intros ->; [reflexivity|].
  split; [reflexivity | discriminate].
Qed.

Lemma login_failures_compared_witness :
  AuthRoutes.login sample_check (fun s => s) demo_store
    [("email", "nobody@x.com"); ("password", lone_surrogate)]
  = (Msg false "Неправильный email или пароль", 401)
  /\ AuthRoutes.login sample_check (fun s => s) demo_store
       [("email", "a@x.com"); ("password", "guess")]
     = AuthRoutes.login sample_check (fun s => s) demo_store
         [("email", "nobody@x.com"); ("password", "guess")]
  /\ AuthRoutes.login sample_check (fun s => s) demo_store
       [("email", "a@x.com"); ("password", lone_surrogate)]
     = (Raised "Ошибка при входе: ", 500).
Proof.
  destruct (login_failures_compared sample_check (fun s => s)
              demo_store demo_store
              [("email", "nobody@x.com"); ("password", lone_surrogate)]
              [("email", "a@x.com"); ("password", lone_surrogate)]
              "nobody@x.com" lone_surrogate "a@x.com" lone_surrogate
              (demo_user 1 "a@x.com" "a" "pw-a")
              eq_refl eq_refl eq_refl eq_refl eq_refl eq_refl eq_refl
              eq_refl eq_refl eq_refl) as (H401 & _ & H500).
  destruct (login_failures_compared sample_check (fun s => s)
              demo_store demo_store
              [("email", "nobody@x.com"); ("password", "guess")]
              [("email", "a@x.com"); ("password", "guess")]
              "nobody@x.com" "guess" "a@x.com" "guess"
              (demo_user 1 "a@x.com" "a" "pw-a")
              eq_refl eq_refl eq_refl eq_refl eq_refl eq_refl eq_refl
              eq_refl eq_refl eq_refl) as (_ & Hsame & _).
  split; [exact H401|]. split.
  - apply Hsame. reflexivity.
  - apply H500. reflexivity.
Defined.

(** ** C9 *)

Lemma filter_all (A : Type) (f : A -> bool) (l : list A) :
  (forall x, In x l -> f x = true) -> filter f l = l.
Proof.
  induction l as [|x r IH]; simpl; intros H; auto.
  rewrite (H x) by now left. f_equal. apply IH. intros y I. apply H. now right.
Qed.

(** The rows of the category query: the categories that some product has. *)
Lemma category_rows_in (st : Store) (c : string) :
  In c (category_rows st)
  <-> exists p, In p (products st) /\ p_category p = Some c.
Proof.
  unfold category_rows. rewrite nodup_In, in_flat_map.
  split; intros (p & I & H); exists p; split; auto.
  - destruct (p_category p); simpl in H; [|tauto].
    destruct H as [->|[]]. reflexivity.
  - rewrite H. now left.
Qed.

(** C9. The two routes do not always agree.  On a catalogue with a
    product whose category is the empty string, [/api/products/categories]
    lists the empty string and [/api/categories], whose list is built with
    the test [if cat[0]], leaves it out; on every catalogue the list of
    [/api/products/categories] is the sorted list, without repetition, of
    the categories some product has. *)
Theorem categories_alias_differs :
  App.get_categories blank_category_store = (CategoriesBody ["seating"], 200)
  /\ ProductRoutes.get_categories blank_category_store
     = (CategoriesBody [""; "seating"], 200)
  /\ App.get_categories blank_category_store
     <> ProductRoutes.get_categories blank_category_store
  /\ forall st,
       exists l,
         ProductRoutes.get_categories st = (CategoriesBody l, 200)
         /\ Sorted (fun a b => String.leb a b = true) l
         /\ NoDup l
         /\ forall c, In c l
                      <-> exists p, In p (products st)
                                    /\ p_category p = Some c.
Proof.
  split; [reflexivity|]. split; [reflexivity|]. split; [discriminate|].
  intros st. exists (order_by String.leb (category_rows st)).
  split; [reflexivity|]. split; [|split].
  - apply order_by_sorted, String.leb_total.
  - apply (Permutation_NoDup (l := category_rows st)).
    + apply Permutation_sym, order_by_perm.
    + apply NoDup_nodup.
  - intros c. rewrite order_by_in. apply category_rows_in.
Qed.

(** ** Worked examples *)

(** Add, repeated Add, List by name, Remove and IsFavorite for user 1 and
    product 7. *)
Example favorites_scenario :
  let s1 := fst (add_to_favorite 50 demo_store 1 7) in
  let s2 := fst (add_to_favorite 51 s1 1 7) in
  let s3 := fst (remove_from_favorite s2 1 7) in
  status (snd (add_to_favorite 50 demo_store 1 7)) = 201
  /\ snd (add_to_favorite 51 s1 1 7)
     = (Msg false "Product already in favorites", 409)
  /\ @get_my_favorites byte_collation ascii_python s2 1
       [("page", "1"); ("per_page", "12"); ("sort_by", "name")]
     = (FavoritesBody 3 1 12 1
          [demo_product 7 "chair" (4999 # 100) (Some "seating");
           demo_product 9 "lamp" (35 # 2) None;
           demo_product 8 "table" (120 # 1) (Some "tables")], 200)
  /\ snd (remove_from_favorite s2 1 7)
     = (Msg true "Product removed from favorites", 200)
  /\ is_favorite s3 1 7 = (IsFavoriteBody false, 200).
Proof. repeat split. Qed.

Example list_newest_first :
  @get_my_favorites byte_collation ascii_python demo_store 1 [("sort_by", "newest")]
  = (FavoritesBody 2 1 12 1
       [demo_product 9 "lamp" (35 # 2) None;
        demo_product 8 "table" (120 # 1) (Some "tables")], 200).
Proof. reflexivity. Qed.

Example list_second_page :
  @get_my_favorites byte_collation ascii_python (bulk_store 5) 1
    [("page", "2"); ("per_page", "2"); ("sort_by", "price_desc")]
  = (FavoritesBody 5 2 2 3
       [demo_product 3 "item" (3 # 1) None;
        demo_product 2 "item" (2 # 1) None], 200).
Proof. reflexivity. Qed.

Example login_accepts :
  AuthRoutes.login sample_check (fun s => ("token-" ++ s)%string) demo_store
    [("email", "b@x.com"); ("password", "pw-b")]
  = (LoginBody "Вход успешен" "token-2"
       (demo_user 2 "b@x.com" "b" "pw-b"), 200).
Proof. reflexivity. Qed.

Example login_requires_fields :
  AuthRoutes.login sample_check (fun s => s) demo_store [("email", "a@x.com")]
  = (Msg false "Email и пароль обязательны", 400).
Proof. reflexivity. Qed.

Example clear_all_counts :
  snd (clear_all_favorites demo_store 1)
  = (ClearedBody "Deleted 2 products from favorites" 2, 200).
Proof. reflexivity. Qed.

(** ** Further properties of the favourites engine *)

Lemma add_to_favorite_created (now : Z) (st : Store) (u p : Z) :
  status (snd (add_to_favorite now st u p)) = 201 ->
  user_exists st u = true /\ product_exists st p = true
  /\ favorite_exists st u p = false
  /\ add_to_favorite now st u p
     = (store_with st (added_row now st u p),
        (FavoriteBody "Product added to favorites"
           (favorite_to_dict (store_with st (added_row now st u p))
                             (added_row now st u p)), 201)).
Proof.
  destruct (add_to_favorite_cases now st u p)
    as [(_ & ->)|[(_ & _ & ->)|[(_ & _ & _ & ->)|(Eu & Ep & Ef & E)]]];
    simpl; try discriminate.
  intros _. auto.
Qed.

(** X1. An Add that answers 201 raises the favourite count of the user by
    exactly one and leaves the count of every other user as it was; the same
    Add sent again, at any later time, answers 409 and changes nothing. *)
Theorem add_counts_once (now later : Z) (st : Store) (u p : Z) :
  status (snd (add_to_favorite now st u p)) = 201 ->
  favorite_count (fst (add_to_favorite now st u p)) u
  = S (favorite_count st u)
  /\ (forall v, v <> u ->
      favorite_count (fst (add_to_favorite now st u p)) v
      = favorite_count st v)
  /\ add_to_favorite later (fst (add_to_favorite now st u p)) u p
     = (fst (add_to_favorite now st u p),
        (Msg false "Product already in favorites", 409)).
Proof.
  intros H. destruct (add_to_favorite_created now st u p H)
    as (Eu & Ep & Ef & ->). simpl fst.
  split; [|split].
  - unfold favorite_count, favorites_of. simpl.
    rewrite filter_app, length_app. simpl. rewrite Z.eqb_refl. simpl. lia.
  - intros v N. unfold favorite_count, favorites_of. simpl.
    rewrite filter_app, length_app. simpl.
    assert ((u =? v) = false) as -> by (apply Z.eqb_neq; congruence).
    simpl. lia.
  - set (st' := store_with st (added_row now st u p)).
    assert (Ef' : favorite_exists st' u p = true).
    { unfold favorite_exists, st'. simpl. rewrite existsb_app. simpl.
      rewrite (same_pair_refl now st u p). now rewrite orb_true_r. }
    destruct (add_to_favorite_cases later st' u p)
      as [(X & _)|[(_ & X & _)|[(_ & _ & _ & E)|(_ & _ & X & _)]]];
      try exact E; unfold user_exists, product_exists in *; simpl in X;
      congruence.
Qed.

Lemma add_counts_once_witness :
  favorite_count (fst (add_to_favorite 50 demo_store 1 7)) 1 = 3%nat
  /\ add_to_favorite 60 (fst (add_to_favorite 50 demo_store 1 7)) 1 7
     = (fst (add_to_favorite 50 demo_store 1 7),
        (Msg false "Product already in favorites", 409)).
Proof.
  destruct (add_counts_once 50 60 demo_store 1 7 eq_refl) as (Hc & _ & Hd).
  split; [exact Hc | exact Hd].
Defined.

(** X2. The favourite an Add returns with its 201 has the next id of the
    sequence, the user, the product and the time of the request, and embeds
    a product record of the catalogue whose id is the requested one. *)
Theorem add_returns_the_product (now : Z) (st : Store) (u p : Z) :
  status (snd (add_to_favorite now st u p)) = 201 ->
  exists product,
    In product (products st) /\ p_id product = p
    /\ snd (add_to_favorite now st u p)
       = (FavoriteBody "Product added to favorites"
            {| fd_id := favorite_seq st; fd_user_id := u;
               fd_product_id := p; fd_product := Some product;
               fd_added_at := now |}, 201).
Proof.
  intros H. destruct (add_to_favorite_created now st u p H)
    as (_ & Ep & _ & ->).
  destruct (Product_get st p) as [product|] eqn:G.
  - exists product. unfold Product_get in G.
    destruct (find_some _ _ G) as [I E]. apply Z.eqb_eq in E.
    repeat split; auto. simpl. unfold favorite_to_dict. simpl.
    unfold Product_get. simpl. now rewrite G.
  - apply Product_get_exists in G. congruence.
Qed.

Lemma add_returns_the_product_witness :
  exists product,
    p_id product = 7
    /\ snd (add_to_favorite 50 demo_store 1 7)
       = (FavoriteBody "Product added to favorites"
            {| fd_id := 4; fd_user_id := 1; fd_product_id := 7;
               fd_product := Some product; fd_added_at := 50 |}, 201).
Proof.
  destruct (add_returns_the_product 50 demo_store 1 7 eq_refl)
    as (product & _ & E & B).
  exists product. split; [exact E | exact B].
Defined.

(** With a primary key, deleting by id takes out the row and nothing else. *)
Lemma delete_by_id_splits (fav : UserFavorite) (l : list UserFavorite) :
  distinct_by (fun f g => f_id f =? f_id g) l = true -> In fav l ->
  exists l1 l2,
    l = l1 ++ fav :: l2
    /\ filter (fun f => negb (f_id f =? f_id fav)) l = l1 ++ l2.
Proof.
  induction l as [|x r IH]; simpl; [tauto|].
  intros H I. apply andb_true_iff in H as [Hx Hr]. apply negb_true_iff in Hx.
  destruct I as [->|I].
  - exists [], r. split; [reflexivity|]. rewrite Z.eqb_refl. simpl.
    apply filter_all. intros y Iy. apply negb_true_iff.
    rewrite Z.eqb_sym. exact (existsb_false_in _ _ y r Hx Iy).
  - destruct (IH Hr I) as (l1 & l2 & E1 & E2).
    assert (N : (f_id x =? f_id fav) = false)
      by exact (existsb_false_in _ _ fav r Hx I).
    rewrite N. simpl. exists (x :: l1), l2.
    split; simpl; congruence.
Qed.

(** X3. On a store that satisfies the constraints a Remove that answers
    200 deletes exactly one row: the table is one row shorter, the favourite
    count of the user is one less, and for every other pair (user, product)
    IsFavorite-presence is as before. *)
Theorem remove_deletes_exactly_one (st : Store) (u p : Z) :
  store_ok st = true ->
  status (snd (remove_from_favorite st u p)) = 200 ->
  List.length (user_favorites st)
  = S (List.length (user_favorites (fst (remove_from_favorite st u p))))
  /\ favorite_count st u
     = S (favorite_count (fst (remove_from_favorite st u p)) u)
  /\ (forall a b, a <> u \/ b <> p ->
      favorite_exists (fst (remove_from_favorite st u p)) a b
      = favorite_exists st a b).
Proof.
  intros H. unfold remove_from_favorite.
  destruct (favorite_first st u p) as [fav|] eqn:F; simpl; [|discriminate].
  intros _. unfold favorite_first in F.
  destruct (find_some _ _ F) as [I S]. apply same_pair_eq in S as [Su Sp].
  apply store_ok_parts in H as (_ & _ & K & _).
  unfold favorites_pk in K. apply andb_true_iff in K as [K _].
  destruct (delete_by_id_splits fav _ K I) as (l1 & l2 & E1 & E2).
  unfold favorite_count, favorites_of, favorite_exists. simpl.
  rewrite E2, E1. split; [|split].
  - rewrite !length_app. simpl. lia.
  - rewrite !filter_app, !length_app. simpl.
    rewrite Su, Z.eqb_refl. simpl. lia.
  - intros a b N. rewrite !existsb_app. simpl.
    assert (same_pair a b fav = false) as ->.
    { destruct (same_pair a b fav) eqn:X; auto.
      apply same_pair_eq in X. destruct N; intuition congruence. }
    reflexivity.
Qed.

Lemma remove_deletes_exactly_one_witness :
  favorite_count demo_store 1
  = S (favorite_count (fst (remove_from_favorite demo_store 1 8)) 1)
  /\ favorite_exists (fst (remove_from_favorite demo_store 1 8)) 1 9
     = favorite_exists demo_store 1 9.
Proof.
  destruct (remove_deletes_exactly_one demo_store 1 8 eq_refl eq_refl)
    as (_ & Hc & Ho).
  split; [exact Hc|]. apply Ho. right. discriminate.
Defined.

(** X4. On a store that satisfies the constraints, an Add that answers
    201 followed by the Remove of the same pair answers 200 and puts the
    favourites table back as it was before the Add; only the id sequence has
    moved on. *)
Theorem add_then_remove_restores (now : Z) (st : Store) (u p : Z) :
  store_ok st = true ->
  status (snd (add_to_favorite now st u p)) = 201 ->
  remove_from_favorite (fst (add_to_favorite now st u p)) u p
  = ({| users := users st; products := products st;
        user_favorites := user_favorites st;
        favorite_seq := favorite_seq st + 1 |},
     (Msg true "Product removed from favorites", 200)).
Proof.
  intros H A.
  destruct (add_to_favorite_created now st u p A) as (_ & _ & Ef & ->).
  simpl fst. unfold remove_from_favorite, favorite_first. simpl.
  apply favorite_first_exists in Ef. unfold favorite_first in Ef.
  rewrite (find_snoc_none _ _ _ Ef (same_pair_refl now st u p)).
  unfold delete_favorite. simpl. rewrite filter_app. simpl.
  rewrite Z.eqb_refl. simpl. rewrite app_nil_r.
  rewrite filter_all; [reflexivity|].
  intros f I. apply store_ok_parts in H as (_ & _ & K & _).
  unfold favorites_pk in K. apply andb_true_iff in K as [_ B].
  rewrite forallb_forall in B. specialize (B f I).
  apply Z.ltb_lt in B. apply negb_true_iff, Z.eqb_neq. lia.
Qed.

Lemma add_then_remove_restores_witness :
  user_favorites
    (fst (remove_from_favorite (fst (add_to_favorite 50 demo_store 1 7)) 1 7))
  = user_favorites demo_store.
Proof.
  rewrite (add_then_remove_restores 50 demo_store 1 7 eq_refl eq_refl).
  reflexivity.
Defined.

Lemma filter_twice (A : Type) (f : A -> bool) (l : list A) :
  filter f (filter f l) = filter f l.
Proof.
  induction l as [|x r IH]; simpl; auto.
  destruct (f x) eqn:E; simpl; [rewrite E, IH|]; auto.
Qed.

Lemma filter_other_user (u v : Z) (l : list UserFavorite) :
  v <> u ->
  filter (fun f => f_user_id f =? v)
         (filter (fun f => negb (f_user_id f =? u)) l)
  = filter (fun f => f_user_id f =? v) l.
Proof.
  intros N. induction l as [|x r IH]; simpl; auto.
  destruct (Z.eqb_spec (f_user_id x) u) as [E|E]; simpl.
  - assert ((f_user_id x =? v) = false) as ->
        by (apply Z.eqb_neq; congruence).
    exact IH.
  - rewrite IH. reflexivity.
Qed.

Lemma find_other_user (u v p : Z) (l : list UserFavorite) :
  v <> u ->
  find (same_pair v p) (filter (fun f => negb (f_user_id f =? u)) l)
  = find (same_pair v p) l.
Proof.
  intros N. induction l as [|x r IH]; simpl; auto.
  destruct (Z.eqb_spec (f_user_id x) u) as [E|E]; simpl.
  - assert (same_pair v p x = false) as ->; [|exact IH].
    unfold same_pair.
    assert ((f_user_id x =? v) = false) as ->
        by (apply Z.eqb_neq; congruence).
    reflexivity.
  - now rewrite IH.
Qed.

Lemma products_of_same_catalogue (st st' : Store)
  (items : list UserFavorite) :
  products st' = products st -> products_of st' items = products_of st items.
Proof.
  intros E. induction items as [|f r IH]; simpl; auto.
  unfold Product_get. now rewrite E, IH.
Qed.

(** List reads the catalogue and the favourites of the user, nothing else. *)
Lemma get_my_favorites_local (C : Collation) (P : Python) (st st' : Store)
  (v : Z) (args : dict) :
  products st' = products st -> favorites_of st' v = favorites_of st v ->
  get_my_favorites st' v args = get_my_favorites st v args.
Proof.
  intros Ep Ef. unfold get_my_favorites.
  assert (Q : forall s, sorted_query st' v s = sorted_query st v s).
  { intros s. unfold sorted_query, join_product. now rewrite Ef, Ep. }
  rewrite Q. cbv zeta.
  destruct (paginate (sorted_query st v (args_get args "sort_by" "name"))
              (clamp_page (args_get_int args "page" 1))
              (clamp_per_page (args_get_int args "per_page" 12)));
    [|reflexivity].
  now rewrite (products_of_same_catalogue st st' _ Ep).
Qed.

(** X5. ClearAll sent a second time answers 200 with a deleted count of 0
    and returns the store it was given; and a ClearAll for one user changes
    neither the List response nor the IsFavorite response of any other
    user. *)
Theorem clear_all_idempotent_and_local (C : Collation) (P : Python)
  (st : Store) (u v : Z) (args : dict) :
  v <> u ->
  clear_all_favorites (fst (clear_all_favorites st u)) u
  = (fst (clear_all_favorites st u),
     (ClearedBody "Deleted 0 products from favorites" 0, 200))
  /\ get_my_favorites (fst (clear_all_favorites st u)) v args
     = get_my_favorites st v args
  /\ (forall p, is_favorite (fst (clear_all_favorites st u)) v p
                = is_favorite st v p).
Proof.
  intros N. split; [|split].
  - unfold clear_all_favorites at 1. cbv zeta.
    assert (E : favorites_of (fst (clear_all_favorites st u)) u = []).
    { unfold favorites_of. simpl.
      apply (filter_out_then_in _ (fun f => f_user_id f =? u)). }
    rewrite E. simpl. now rewrite filter_twice.
  - apply get_my_favorites_local; [reflexivity|].
    unfold favorites_of. simpl. now apply filter_other_user.
  - intros p. unfold is_favorite, favorite_first. simpl.
    now rewrite find_other_user.
Qed.

Lemma clear_all_idempotent_and_local_witness :
  @get_my_favorites byte_collation ascii_python (fst (clear_all_favorites demo_store 1)) 2 []
  = @get_my_favorites byte_collation ascii_python demo_store 2 [].
Proof.
  apply (clear_all_idempotent_and_local byte_collation ascii_python
           demo_store 1 2 []).
  discriminate.
Defined.

(** X6. On a store that satisfies the constraints the rows List sorts and
    paginates are, for every [sort_by], a rearrangement of the favourites of
    the user: the join and the sort neither drop nor repeat a favourite.
    So IsFavorite answers true for a product exactly when one of these rows
    is for that product. *)
Theorem list_rows_are_the_favorites (C : Collation) (st : Store) (u : Z)
  (sort_by : string) :
  store_ok st = true ->
  Permutation (sorted_query st u sort_by) (favorites_of st u)
  /\ forall p,
       is_favorite st u p = (IsFavoriteBody true, 200)
       <-> exists f, In f (sorted_query st u sort_by) /\ f_product_id f = p.
Proof.
  intros H.
  assert (J : forall leb,
             Permutation
               (map fst (order_by leb (join_product st (favorites_of st u))))
               (favorites_of st u)).
  { intros leb. apply store_ok_parts in H as (_ & K & _ & F).
    rewrite <- (join_product_fst st (favorites_of st u) K) at 2.
    - apply Permutation_map, order_by_perm.
    - intros f I. apply favorites_fk_product; auto.
      now apply favorites_of_in in I. }
  assert (P : Permutation (sorted_query st u sort_by) (favorites_of st u)).
  { destruct (sorted_query_cases C st u sort_by)
      as [(_ & ->)|[(_ & ->)|[(_ & ->)|(_ & _ & _ & ->)]]]; auto.
    apply order_by_perm. }
  split; [exact P|].
  intros p. unfold is_favorite, favorite_first. split.
  - destruct (find (same_pair u p) (user_favorites st)) as [f|] eqn:F;
      [|discriminate].
    intros _. destruct (find_some _ _ F) as [I S].
    apply same_pair_eq in S as [Su Sp]. exists f. split; [|exact Sp].
    apply (Permutation_in f (Permutation_sym P)).
    unfold favorites_of. apply filter_In. split; auto.
    now apply Z.eqb_eq.
  - intros (f & I & E). apply (Permutation_in f P) in I.
    unfold favorites_of in I. apply filter_In in I as [I Eu].
    apply Z.eqb_eq in Eu.
    destruct (find (same_pair u p) (user_favorites st)) eqn:F; [reflexivity|].
    apply find_none_existsb in F.
    assert (X := existsb_false_in _ _ f _ F I).
    unfold same_pair in X. rewrite Eu, E, !Z.eqb_refl in X. discriminate.
Qed.

Lemma list_rows_are_the_favorites_witness :
  Permutation (@sorted_query byte_collation demo_store 1 "price_desc")
              (favorites_of demo_store 1).
Proof.
  apply (list_rows_are_the_favorites byte_collation demo_store 1 "price_desc").
  reflexivity.
Defined.

(** ** The catalogue routes *)

Lemma has_category_eq (c : string) (p : Product) :
  has_category c p = true <-> p_category p = Some c.
Proof.
  unfold has_category. destruct (p_category p) as [d|].
  - rewrite String.eqb_eq. split; congruence.
  - split; discriminate.
Qed.

Lemma filter_both (A : Type) (f g : A -> bool) (l : list A) :
  filter g (filter f l) = filter (fun x => f x && g x) l.
Proof.
  induction l as [|x r IH]; simpl; auto.
  destruct (f x); simpl; [destruct (g x)|]; now rewrite IH.
Qed.

Lemma filter_true (A : Type) (l : list A) : filter (fun _ => true) l = l.
Proof. apply filter_all. reflexivity. Qed.

Lemma get_products_listed (st : Store) (args : dict) :
  get_products st args
  = (ProductsBody (Z.of_nat (List.length (listed st args))) (listed st args),
     200).
Proof. reflexivity. Qed.

(** What ROUTE 1 lists, in terms of the two parameters as given. *)
Lemma listed_filter (st : Store) (args : dict) :
  listed st args
  = filter (fun p =>
              match given args "category" with
              | Some c => has_category c p
              | None => true
              end
              && match given args "in_stock" with
                 | Some v => Bool.eqb (p_in_stock p)
                                      (String.eqb (lower v) "true")
                 | None => true
                 end) (products st).
Proof.
  unfold listed, get_products, given. cbv zeta. simpl fst.
  rewrite <- filter_both.
  destruct (dict_get args "category") as [c|];
    [destruct (String.eqb c "")|];
    (destruct (dict_get args "in_stock") as [v|];
     [destruct (String.eqb v "")|]);
    now rewrite ?filter_true.
Qed.

Lemma listed_in (st : Store) (args : dict) (p : Product) :
  In p (listed st args)
  <-> In p (products st)
      /\ (forall c, given args "category" = Some c -> p_category p = Some c)
      /\ (forall v, given args "in_stock" = Some v ->
          p_in_stock p = String.eqb (lower v) "true").
Proof.
  rewrite listed_filter, filter_In, andb_true_iff.
  destruct (given args "category") as [c|];
    destruct (given args "in_stock") as [v|];
    rewrite ?has_category_eq, ?eqb_true_iff;
    split; intros (I & X & Y); (split; [exact I|]);
    try (split; [intros ? E; injection E as <- || discriminate E; auto
                |intros ? E; injection E as <- || discriminate E; auto]);
    auto.
Qed.

(** X8. GET /products answers 200 with a count equal to the number of
    products it lists; it lists exactly the products of the catalogue that
    have the category given (when a non-empty [category] is given) and whose
    stock flag equals "the lower-cased [in_stock] is [true]" (when a
    non-empty [in_stock] is given), in catalogue order; with neither
    parameter given it lists the whole catalogue. *)
Theorem get_products_lists_matching (st : Store) (args : dict) :
  get_products st args
  = (ProductsBody (Z.of_nat (List.length (listed st args))) (listed st args),
     200)
  /\ (forall p,
      In p (listed st args)
      <-> In p (products st)
          /\ (forall c, given args "category" = Some c ->
              p_category p = Some c)
          /\ (forall v, given args "in_stock" = Some v ->
              p_in_stock p = String.eqb (lower v) "true"))
  /\ (exists keep, listed st args = filter keep (products st))
  /\ (given args "category" = None -> given args "in_stock" = None ->
      listed st args = products st).
Proof.
  split; [apply get_products_listed|].
  split; [apply listed_in|].
  split; [eexists; apply listed_filter|].
  intros Ec Es. rewrite listed_filter, Ec, Es. apply filter_true.
Qed.

(** X9. A non-empty [in_stock] parameter is read as a yes only when it is
    [true] in some letter case: then only products in stock are listed;
    every other non-empty value, [1] or [yes] as much as [false], lists only
    the products that are out of stock. *)
Theorem in_stock_is_true_or_not (st : Store) (args : dict) (v : string)
  (p : Product) :
  given args "in_stock" = Some v -> In p (listed st args) ->
  (lower v = "true" -> p_in_stock p = true)
  /\ (lower v <> "true" -> p_in_stock p = false).
Proof.
  intros G I. apply listed_in in I as (_ & _ & S). rewrite (S v G).
  split; intros E.
  - now apply String.eqb_eq.
  - now apply String.eqb_neq.
Qed.

Lemma in_stock_is_true_or_not_witness :
  listed stock_store [("in_stock", "yes")] <> []
  /\ forall p,
       In p (listed stock_store [("in_stock", "yes")]) ->
       p_in_stock p = false.
Proof.
  split; [discriminate|]. intros p I.
  apply (in_stock_is_true_or_not _ [("in_stock", "yes")] "yes" p eq_refl I).
  discriminate.
Defined.

Lemma listed_by_category (st : Store) (c : string) :
  c <> "" ->
  listed st [("category", c)] = filter (has_category c) (products st).
Proof.
  intros N. rewrite listed_filter. unfold given. simpl.
  apply String.eqb_neq in N. rewrite N.
  apply filter_ext. intros p. apply andb_true_r.
Qed.

Lemma filter_nonempty (A : Type) (f : A -> bool) (l : list A) :
  filter f l <> [] <-> exists x, In x l /\ f x = true.
Proof.
  split.
  - destruct (filter f l) as [|x r] eqn:E; [congruence|]. intros _.
    exists x. apply filter_In. rewrite E. now left.
  - intros (x & I & F) E.
    assert (X : In x (filter f l)) by (apply filter_In; auto).
    now rewrite E in X.
Qed.

(** X10. The categories GET /categories ([app.py]) lists are exactly the
    values that work as a filter: [c] is listed if and only if [c] is not
    empty and GET /products?category=c lists at least one product; and
    every product that request lists has category [c]. *)
Theorem categories_are_the_working_filters (st : Store) (c : string) :
  exists l,
    App.get_categories st = (CategoriesBody l, 200)
    /\ (In c l <-> c <> "" /\ listed st [("category", c)] <> [])
    /\ (c <> "" -> forall p, In p (listed st [("category", c)]) ->
                             p_category p = Some c).
Proof.
  eexists. split; [reflexivity|]. split.
  - rewrite order_by_in, filter_In, category_rows_in, negb_true_iff.
    rewrite String.eqb_neq. split.
    + intros ((p & I & E) & N). split; auto.
      rewrite (listed_by_category st c N). apply filter_nonempty.
      exists p. split; auto. now apply has_category_eq.
    + intros (N & L). split; auto.
      rewrite (listed_by_category st c N) in L.
      apply filter_nonempty in L as (p & I & E).
      exists p. split; auto. now apply has_category_eq.
  - intros N p I. rewrite (listed_by_category st c N) in I.
    apply filter_In in I as [_ E]. now apply has_category_eq.
Qed.

(** X11. With [products.id] a primary key, GET /products/<id> on the id of
    any product GET /products lists answers 200 with that very product;
    on an id no product has it answers 404; and a 200 always carries a
    product of the catalogue with the id asked for. *)
Theorem get_product_fetches_listed (st : Store) (args : dict) (p : Product)
  (k : Z) :
  products_pk st = true ->
  (In p (listed st args) -> get_product st (p_id p) = (ProductBody p, 200))
  /\ (product_exists st k = false ->
      get_product st k = (Failure "Product not found", 404))
  /\ (forall q, get_product st k = (ProductBody q, 200) ->
      In q (products st) /\ p_id q = k).
Proof.
  intros K. unfold get_product. split; [|split].
  - intros I. apply listed_in in I as (I & _).
    now rewrite (Product_get_row st p K I).
  - intros E. apply Product_get_exists in E. now rewrite E.
  - intros q E. destruct (Product_get st k) as [r|] eqn:G; [|discriminate].
    injection E as <-. unfold Product_get in G.
    destruct (find_some _ _ G) as [I X]. apply Z.eqb_eq in X. auto.
Qed.

Lemma get_product_fetches_listed_witness :
  get_product demo_store 8
  = (ProductBody (demo_product 8 "table" (120 # 1) (Some "tables")), 200)
  /\ get_product demo_store 99 = (Failure "Product not found", 404).
Proof.
  destruct (get_product_fetches_listed demo_store [("category", "tables")]
              (demo_product 8 "table" (120 # 1) (Some "tables")) 99 eq_refl)
    as (Hl & Hn & _).
  split.
  - apply Hl. vm_compute. now left.
  - apply Hn. reflexivity.
Defined.

(** ** Keys: a unique column finds the row itself *)

Lemma find_unique_key (A K : Type) (key : A -> K) (eqb : K -> K -> bool)
  (l : list A) (x : A) :
  (forall k, eqb k k = true) ->
  distinct_by (fun a b => eqb (key a) (key b)) l = true -> In x l ->
  find (fun y => eqb (key y) (key x)) l = Some x.
Proof.
  intros R. induction l as [|y r IH]; simpl; [tauto|].
  intros H [->|I].
  - now rewrite R.
  - apply andb_true_iff in H as [Hy Hr]. apply negb_true_iff in Hy.
    destruct (eqb (key y) (key x)) eqn:E; [|now apply IH].
    rewrite (in_existsb _ (fun q => eqb (key y) (key q)) x r I E) in Hy.
    discriminate.
Qed.

Lemma User_get_row (st : Store) (u : User) :
  users_pk st = true -> In u (users st) -> User_get st (u_id u) = Some u.
Proof.
  intros K I. unfold User_get.
  apply (find_unique_key User Z u_id Z.eqb); auto using Z.eqb_refl.
Qed.

Lemma User_by_email_row (st : Store) (u : User) :
  users_email_unique st = true -> In u (users st) ->
  User_by_email st (u_email u) = Some u.
Proof.
  intros K I. unfold User_by_email.
  apply (find_unique_key User string u_email String.eqb);
    auto using String.eqb_refl.
Qed.

(** ** Login and profile *)

Section LoginProfile.

Variable check_password_hash : string -> string -> option bool.
Variable create_access_token : string -> string.

(** What a 200 of [login] tells. *)
Lemma login_accepted (st : Store) (data : dict) (m t : string) (u : User) :
  AuthRoutes.login check_password_hash create_access_token st data
  = (LoginBody m t u, 200) ->
  exists email password,
    dict_get data "email" = Some email
    /\ dict_get data "password" = Some password
    /\ User_by_email st email = Some u
    /\ check_password_hash (u_password_hash u) password = Some true
    /\ t = create_access_token (str_of_int (u_id u)).
Proof.
  unfold AuthRoutes.login.
  destruct (dict_get data "email") as [email|]; [|discriminate].
  destruct (dict_get data "password") as [password|]; [|discriminate].
  destruct (String.eqb email "" || String.eqb password ""); [discriminate|].
  cbv zeta. unfold AuthRoutes.check_password.
  destruct (User_by_email st email) as [v|] eqn:F; [|discriminate].
  destruct (check_password_hash (u_password_hash v) password) as [[|]|] eqn:X;
    simpl; try discriminate.
  intros E. injection E as _ <- <-. exists email, password. auto.
Qed.

(** X12. With [users.id] a primary key of the [Integer] column type, the
    profile route called with the subject login put into the token,
    [str(user.id)], answers 200 with the dict of the very user login
    returned.  A subject on which [int] raises gets 500, and a subject
    [int] reads as a number that is no user's id gets 404. *)
Theorem login_then_profile (P : Python) (st : Store) (data : dict)
  (m t : string) (u : User) :
  users_pk st = true ->
  - 2 ^ 31 <= u_id u < 2 ^ 31 ->
  AuthRoutes.login check_password_hash create_access_token st data
  = (LoginBody m t u, 200) ->
  t = create_access_token (str_of_int (u_id u))
  /\ AuthRoutes.get_profile st (str_of_int (u_id u))
     = (ProfileBody (user_to_dict u), 200)
  /\ (forall identity, py_int identity = None ->
      AuthRoutes.get_profile st identity = (ServerError "Ошибка: ", 500))
  /\ (forall identity k, py_int identity = Some k ->
      user_exists st k = false ->
      AuthRoutes.get_profile st identity
      = (Failure "Пользователь не найден", 404)).
Proof.
  intros K B L.
  destruct (login_accepted st data m t u L) as (e & pw & _ & _ & F & _ & T).
  unfold User_by_email in F. destruct (find_some _ _ F) as [I _].
  unfold AuthRoutes.get_profile.
  split; [exact T|]. split; [|split].
  - rewrite py_int_str, (User_get_row st u K I); [reflexivity|].
    change (2 ^ 63) with 9223372036854775808.
    change (2 ^ 31) with 2147483648 in B. lia.
  - intros identity N. now rewrite N.
  - intros identity k X E. apply User_get_exists in E. now rewrite X, E.
Qed.

(** X13. With unique emails and both fields present and not empty, the
    answer of login follows the user of that email: 401 when there is none;
    and when there is one, 200 with that user and a token made from its id
    when the password check answers true, the same 401 when it answers
    false, and 500 when the check raises. *)
Theorem login_follows_the_check (st : Store) (data : dict)
  (email password : string) :
  users_email_unique st = true ->
  dict_get data "email" = Some email ->
  dict_get data "password" = Some password ->
  String.eqb email "" = false -> String.eqb password "" = false ->
  (email_exists st email = false ->
   AuthRoutes.login check_password_hash create_access_token st data
   = (Msg false "Неправильный email или пароль", 401))
  /\ (forall u, In u (users st) -> u_email u = email ->
      (check_password_hash (u_password_hash u) password = Some true ->
       AuthRoutes.login check_password_hash create_access_token st data
       = (LoginBody "Вход успешен"
            (create_access_token (str_of_int (u_id u))) u, 200))
      /\ (check_password_hash (u_password_hash u) password = Some false ->
          AuthRoutes.login check_password_hash create_access_token st data
          = (Msg false "Неправильный email или пароль", 401))
      /\ (check_password_hash (u_password_hash u) password = None ->
          AuthRoutes.login check_password_hash create_access_token st data
          = (Raised "Ошибка при входе: ", 500))).
Proof.
  intros K De Dp Ne Np. split.
  - intros M. now apply (login_unknown_email _ _ st data email password).
  - intros u I Eu.
    assert (F : User_by_email st email = Some u)
      by (rewrite <- Eu; now apply User_by_email_row).
    rewrite (login_known_email _ _ st data email password u De Dp Ne Np F).
    repeat split; intros ->; reflexivity.
Qed.

End LoginProfile.

Lemma login_then_profile_witness :
  @AuthRoutes.get_profile ascii_python demo_store (str_of_int 2)
  = (ProfileBody (user_to_dict (demo_user 2 "b@x.com" "b" "pw-b")), 200).
Proof.
  apply (login_then_profile sample_check (fun s => s) ascii_python demo_store
           [("email", "b@x.com"); ("password", "pw-b")]
           "Вход успешен" "2" (demo_user 2 "b@x.com" "b" "pw-b"));
    [reflexivity | vm_compute; split; congruence | reflexivity].
Defined.

Lemma login_follows_the_check_witness :
  AuthRoutes.login sample_check (fun s => s) demo_store
    [("email", "a@x.com"); ("password", "pw-a")]
  = (LoginBody "Вход успешен" "1" (demo_user 1 "a@x.com" "a" "pw-a"), 200)
  /\ AuthRoutes.login sample_check (fun s => s) demo_store
       [("email", "a@x.com"); ("password", lone_surrogate)]
     = (Raised "Ошибка при входе: ", 500).
Proof.
  destruct (login_follows_the_check sample_check (fun s => s) demo_store
              [("email", "a@x.com"); ("password", "pw-a")] "a@x.com" "pw-a"
              eq_refl eq_refl eq_refl eq_refl eq_refl) as [_ H].
  destruct (H (demo_user 1 "a@x.com" "a" "pw-a") (or_introl eq_refl) eq_refl)
    as (Hok & _ & _).
  destruct (login_follows_the_check sample_check (fun s => s) demo_store
              [("email", "a@x.com"); ("password", lone_surrogate)]
              "a@x.com" lone_surrogate
              eq_refl eq_refl eq_refl eq_refl eq_refl) as [_ H'].
  destruct (H' (demo_user 1 "a@x.com" "a" "pw-a") (or_introl eq_refl) eq_refl)
    as (_ & _ & Hraise).
  split; [apply Hok | apply Hraise]; reflexivity.
Defined.

(** ** Registration *)

Lemma insert_user_some (st st' : Store) (u : User) :
  insert_user st u = Some st' ->
  user_exists st (u_id u) = false
  /\ email_exists st (u_email u) = false
  /\ username_exists st (u_username u) = false
  /\ st' = {| users := users st ++ [u]; products := products st;
              user_favorites := user_favorites st;
              favorite_seq := favorite_seq st |}.
Proof.
  unfold insert_user, user_exists, email_exists, username_exists.
  destruct (existsb _ (users st)) eqn:E; [discriminate|].
  intros X. injection X as <-.
  assert (W : forall g : User -> bool,
             (forall v, g v = true ->
                        (u_id v =? u_id u)
                        || String.eqb (u_email v) (u_email u)
                        || String.eqb (u_username v) (u_username u) = true) ->
             existsb g (users st) = false).
  { intros g Hg. destruct (existsb g (users st)) eqn:F; auto.
    apply existsb_exists in F as (v & I & Fv).
    rewrite (in_existsb _ _ v _ I (Hg v Fv)) in E. discriminate. }
  repeat split; apply W; intros v ->; now rewrite ?orb_true_r.
Qed.


Section RegisterFacts.

Variable generate_password_hash : string -> string.
Variable varchar : nat -> string -> option string.

(** What a 201 of [register] tells. *)
Lemma register_created (new_id now : Z) (st : Store) (data : dict) :
  snd (snd (AuthRoutes.register generate_password_hash varchar
              new_id now st data)) = 201 ->
  exists email username password e n h f,
    dict_get data "email" = Some email
    /\ dict_get data "username" = Some username
    /\ dict_get data "password" = Some password
    /\ email_exists st email = false
    /\ username_exists st username = false
    /\ varchar 120 email = Some e /\ varchar 80 username = Some n
    /\ varchar 255 (generate_password_hash password) = Some h
    /\ varchar 120 (match dict_get data "full_name" with
                    | Some v => v
                    | None => ""
                    end) = Some f
    /\ insert_user st (mkUser new_id e n h (Some f) now)
       = Some (fst (AuthRoutes.register generate_password_hash varchar
                      new_id now st data))
    /\ snd (AuthRoutes.register generate_password_hash varchar
              new_id now st data)
       = (RegisteredBody "Аккаунт успешно создан"
            (user_to_dict (mkUser new_id e n h (Some f) now)), 201).
Proof.
  unfold AuthRoutes.register.
  destruct (dict_get data "email") as [email|]; [|discriminate].
  destruct (dict_get data "username") as [username|]; [|discriminate].
  destruct (dict_get data "password") as [password|]; [|discriminate].
  destruct (User_by_email st email) eqn:Fe; [discriminate|].
  destruct (User_by_username st username) eqn:Fn; [discriminate|].
  cbv zeta.
  set (full_name := match dict_get data "full_name" with
                    | Some v => v
                    | None => ""
                    end).
  destruct (varchar 120 email) as [e|] eqn:Ve; [|discriminate].
  destruct (varchar 80 username) as [n|] eqn:Vn; [|discriminate].
  destruct (varchar 255 (generate_password_hash password)) as [h|] eqn:Vh;
    [|discriminate].
  destruct (varchar 120 full_name) as [f|] eqn:Vf; [|discriminate].
  destruct (insert_user st _) as [st'|] eqn:I; [|discriminate].
  intros _. exists email, username, password, e, n, h, f. simpl.
  apply find_none_existsb in Fe, Fn.
  repeat split; auto.
Qed.

(** X14. Registration refuses a taken email with a 409 whatever the
    username is, and a taken username with another 409 when the email is
    free; a request that lacks one of the three keys gets a 400.  In all
    three cases the store is returned as it was. *)
Theorem register_conflicts (new_id now : Z) (st : Store) (data : dict) :
  (dict_get data "email" = None \/ dict_get data "username" = None
   \/ dict_get data "password" = None ->
   AuthRoutes.register generate_password_hash varchar new_id now st data
   = (st, (Failure "Заполните все обязательные поля", 400)))
  /\ (forall email username password,
      dict_get data "email" = Some email ->
      dict_get data "username" = Some username ->
      dict_get data "password" = Some password ->
      (email_exists st email = true ->
       AuthRoutes.register generate_password_hash varchar new_id now st data
       = (st, (Failure "Пользователь с таким email уже существует", 409)))
      /\ (email_exists st email = false ->
          username_exists st username = true ->
          AuthRoutes.register generate_password_hash varchar new_id now
            st data
          = (st, (Failure "Это имя пользователя уже занято", 409)))).
Proof.
  unfold AuthRoutes.register. split.
  - intros [E|[E|E]]; rewrite E;
      repeat match goal with
             | |- context [match dict_get data ?k with _ => _ end] =>
               destruct (dict_get data k)
             end; reflexivity.
  - intros email username password -> -> ->. split.
    + intros E. destruct (User_by_email st email) eqn:F; [reflexivity|].
      unfold User_by_email in F. apply find_none_existsb in F.
      unfold email_exists in E. congruence.
    + intros Ee En. apply find_none_existsb in Ee.
      fold (User_by_email st email) in Ee. rewrite Ee.
      destruct (User_by_username st username) eqn:F; [reflexivity|].
      unfold User_by_username in F. apply find_none_existsb in F.
      unfold username_exists in En. congruence.
Qed.

(** X15. Whatever the request and the id drawn, registration keeps the
    keys of the [users] table (unique ids, emails and usernames) and the
    constraints of the favourites; it never touches the products or the
    favourites; and any answer other than 201 returns the store as it was,
    while a 201 adds exactly one user, with the id drawn. *)
Theorem register_keeps_users_unique (new_id now : Z) (st : Store)
  (data : dict) :
  users_ok st = true ->
  users_ok (fst (AuthRoutes.register generate_password_hash varchar
                   new_id now st data)) = true
  /\ (store_ok st = true ->
      store_ok (fst (AuthRoutes.register generate_password_hash varchar
                       new_id now st data)) = true)
  /\ products (fst (AuthRoutes.register generate_password_hash varchar
                      new_id now st data)) = products st
  /\ user_favorites (fst (AuthRoutes.register generate_password_hash varchar
                            new_id now st data)) = user_favorites st
  /\ (snd (snd (AuthRoutes.register generate_password_hash varchar
                  new_id now st data)) <> 201 ->
      fst (AuthRoutes.register generate_password_hash varchar
             new_id now st data) = st)
  /\ (snd (snd (AuthRoutes.register generate_password_hash varchar
                  new_id now st data)) = 201 ->
      exists u, u_id u = new_id
                /\ users (fst (AuthRoutes.register generate_password_hash
                                 varchar new_id now st data))
                   = users st ++ [u]).
Proof.
  intros K.
  set (r := AuthRoutes.register generate_password_hash varchar
              new_id now st data).
  destruct (Z.eq_dec (snd (snd r)) 201) as [E|E].
  - destruct (register_created new_id now st data E)
      as (email & username & password & e & n & h & f
          & _ & _ & _ & _ & _ & _ & _ & _ & _ & I & _).
    fold r in I. apply insert_user_some in I as (Fi & Fe & Fn & ->).
    simpl in Fi, Fe, Fn. simpl.
    split; [|split; [|split; [reflexivity|split; [reflexivity|split]]]].
    + unfold users_ok, users_pk, users_email_unique, users_username_unique
        in *. simpl.
      apply andb_true_iff in K as [K K3]. apply andb_true_iff in K as [K1 K2].
      rewrite !distinct_by_snoc, K1, K2, K3. simpl.
      unfold user_exists, email_exists, username_exists in Fi, Fe, Fn.
      now rewrite Fi, Fe, Fn.
    + intros S. rewrite store_ok_parts in *.
      unfold unique_user_product, products_pk, favorites_pk, favorites_fk
        in *. simpl. destruct S as (S1 & S2 & S3 & S4).
      repeat split; auto.
      rewrite forallb_forall in *. intros x Ix. specialize (S4 x Ix).
      apply andb_true_iff in S4 as [Su Sp]. rewrite Sp, existsb_app, Su.
      reflexivity.
    + intros N. congruence.
    + intros _. eexists. split; [|reflexivity]. reflexivity.
  - assert (N : fst r = st).
    { unfold r, AuthRoutes.register in *.
      repeat match goal with
             | |- context [match ?x with _ => _ end] =>
               destruct x eqn:?; simpl in *; try reflexivity
             end; congruence. }
    rewrite N. repeat split; auto; congruence.
Qed.

End RegisterFacts.

Lemma register_keeps_users_unique_witness :
  users_ok demo_store = true
  /\ users_ok (fst (AuthRoutes.register (fun s => s) varchar_bytes 3 70
                      demo_store
                      [("email", "c@x.com"); ("username", "c");
                       ("password", "pw-c")])) = true.
Proof.
  split; [reflexivity|].
  apply (register_keeps_users_unique (fun s => s) varchar_bytes 3 70
           demo_store). reflexivity.
Defined.

Lemma credentials_email (e p : string) :
  dict_get [("email", e); ("password", p)] "email" = Some e.
Proof. reflexivity. Qed.

Lemma credentials_password (e p : string) :
  dict_get [("email", e); ("password", p)] "password" = Some p.
Proof. reflexivity. Qed.

Section RegisterLogin.

Variable generate_password_hash : string -> string.
Variable varchar : nat -> string -> option string.
Variable check_password_hash : string -> string -> option bool.
Variable create_access_token : string -> string.

(** X16. A user who registered with a 201 can log in at once with the
    same email and password, when both are not empty, the two columns
    stored them unchanged and the hash library verifies the hash it made:
    login on the store registration returned answers 200 with the new
    user and a token made from the id drawn. *)
Theorem register_then_login (new_id now : Z) (st : Store) (data : dict)
  (email password : string) :
  dict_get data "email" = Some email ->
  dict_get data "password" = Some password ->
  String.eqb email "" = false -> String.eqb password "" = false ->
  varchar 120 email = Some email ->
  varchar 255 (generate_password_hash password)
  = Some (generate_password_hash password) ->
  check_password_hash (generate_password_hash password) password
  = Some true ->
  snd (snd (AuthRoutes.register generate_password_hash varchar
              new_id now st data)) = 201 ->
  exists u,
    u_id u = new_id /\ u_email u = email
    /\ AuthRoutes.login check_password_hash create_access_token
         (fst (AuthRoutes.register generate_password_hash varchar
                 new_id now st data))
         [("email", email); ("password", password)]
       = (LoginBody "Вход успешен"
            (create_access_token (str_of_int new_id)) u, 200).
Proof.
  intros De Dp Ne Np Ve Vh C R.
  destruct (register_created _ _ new_id now st data R)
    as (email' & username & password' & e & n & h & f
        & De' & _ & Dp' & Fe & _ & Ve' & _ & Vh' & _ & I & _).
  assert (email' = email) by congruence. subst email'.
  assert (password' = password) by congruence. subst password'.
  assert (e = email) by congruence. subst e.
  assert (h = generate_password_hash password) by congruence. subst h.
  apply insert_user_some in I as (_ & _ & _ & ->).
  eexists. split; [|split]; [| |unfold AuthRoutes.login].
  3:{ rewrite credentials_email, credentials_password, Ne, Np.
      simpl orb. cbv iota zeta.
      unfold User_by_email. simpl users.
      apply find_none_existsb in Fe.
      rewrite (find_snoc_none (fun u => String.eqb (u_email u) email)
                 (users st)
                 (mkUser new_id email n (generate_password_hash password)
                         (Some f) now)
                 Fe (String.eqb_refl email)).
      unfold AuthRoutes.check_password. simpl u_password_hash.
      rewrite C. simpl. reflexivity. }
  all: reflexivity.
Qed.


End RegisterLogin.

Lemma register_then_login_witness :
  exists u,
    u_id u = 3
    /\ AuthRoutes.login sample_check (fun s => s)
         (fst (AuthRoutes.register (fun s => s) varchar_bytes 3 70 demo_store
                 [("email", "c@x.com"); ("username", "c");
                  ("password", "pw-c")]))
         [("email", "c@x.com"); ("password", "pw-c")]
       = (LoginBody "Вход успешен" "3" u, 200).
Proof.
  destruct (register_then_login (fun s => s) varchar_bytes sample_check
              (fun s => s) 3 70 demo_store
              [("email", "c@x.com"); ("username", "c"); ("password", "pw-c")]
              "c@x.com" "pw-c" eq_refl eq_refl eq_refl eq_refl eq_refl
              eq_refl eq_refl eq_refl) as (u & Hi & _ & Hl).
  exists u. split; [exact Hi | exact Hl].
Defined.


(** ** Worked examples for the catalogue and the accounts *)

Example products_by_category :
  get_products demo_store [("category", "tables"); ("in_stock", "TRUE")]
  = (ProductsBody 1 [demo_product 8 "table" (120 # 1) (Some "tables")], 200).
Proof. reflexivity. Qed.

Example products_with_empty_filters :
  get_products demo_store [("category", ""); ("in_stock", "")]
  = (ProductsBody 3 (products demo_store), 200).
Proof. reflexivity. Qed.

Example register_new_account :
  AuthRoutes.register (fun s => ("hash:" ++ s)%string) varchar_bytes 3 70
    demo_store
    [("email", "c@x.com"); ("username", "c"); ("password", "pw-c")]
  = ({| users := users demo_store
                 ++ [mkUser 3 "c@x.com" "c" "hash:pw-c" (Some "") 70];
        products := products demo_store;
        user_favorites := user_favorites demo_store;
        favorite_seq := 4 |},
     (RegisteredBody "Аккаунт успешно создан"
        (mkUserDict 3 "c@x.com" "c" (Some "") 70), 201)).
Proof. reflexivity. Qed.

Example register_taken_id :
  AuthRoutes.register (fun s => s) varchar_bytes 2 70 demo_store
    [("email", "c@x.com"); ("username", "c"); ("password", "pw-c")]
  = (demo_store, (ServerError "Ошибка при регистрации: ", 500)).
Proof. reflexivity. Qed.

Example profile_of_unparsable_subject :
  @AuthRoutes.get_profile ascii_python demo_store "two"
  = (ServerError "Ошибка: ", 500).
Proof. reflexivity. Qed.

Example list_page_out_of_range :
  @get_my_favorites byte_collation ascii_python demo_store 1
    [("page", "9223372036854775807"); ("per_page", "2")]
  = (Raised "Error: ", 500).
Proof. reflexivity. Qed.
